(** * Synthetic daily spare-parts demand generator: model and properties

    A shallow embedding of [main.py].  Python floats are read as real
    numbers (exact arithmetic, no rounding, no NaN), Python integers as
    [Z].  The global NumPy random state is an explicit state threaded
    through every draw; exceptions are an error result. *)

From Stdlib Require Import QArith PrimFloat FloatOps SpecFloat.
From Stdlib Require Import Reals Lra Lia ZArith List String Ascii Bool.
From Stdlib Require Import Permutation Sorted.
From Stdlib Require Import DecimalString DecimalN.
Import ListNotations.

(* A decimal float literal stands for the nearest binary64 number, as in
   Python. *)
Set Warnings "-inexact-float".

Open Scope R_scope.

(** ** Numeric helpers: comparisons as booleans, [max], [np.clip] *)

Module Num.

Definition Rleb (x y : R) : bool := if Rle_dec x y then true else false.
Definition Rltb (x y : R) : bool := if Rlt_dec x y then true else false.

(** Python's [max(x, y)]: [y] replaces [x] only when [y > x]. *)
Definition py_max (x y : R) : R := if Rltb x y then y else x.

(** [np.clip(x, lo, hi)] is [minimum(maximum(x, lo), hi)]. *)
Definition np_clip (x lo hi : R) : R := Rmin (Rmax x lo) hi.

End Num.
Import Num.

(** ** NB param solver *)

(** [nb_params] in exact arithmetic, every operation on real numbers
    with no rounding and nothing out of range; [Binary64.nb_params] below
    is the function as the interpreter runs it.  [None] stands for the
    pair [(None, None)], the signal for "use Poisson"; [Some (r, p)] for
    the pair [(r, p)]. *)
Definition nb_params (mean cv : R) : option (R * R) :=
  let var := (cv * mean) ^ 2 in
  if Rleb var mean then None
  else
    let r := mean ^ 2 / (var - mean) in
    let p := r / (r + mean) in
    let p := np_clip p 1e-6 (1 - 1e-6) in
    Some (r, p).

(** ** Errors and the random state *)

Inductive error : Set :=
| SeedError            (* ValueError of NumPy: seed outside [0, 2**32 - 1] *)
| NegativeDimensions   (* ValueError of NumPy: a negative [size] *)
| DateParseError       (* pandas could not read a date *)
| KeyError             (* dict lookup of a missing key *)
| IndexError           (* index out of range *)
| DomainError          (* ValueError of SciPy: "Domain error in arguments" *)
| OverflowError        (* Python: a float power out of range *)
| ZeroDivisionError.   (* Python: float division by zero *)

Inductive result (A : Type) : Type :=
| Ok (a : A)
| Raise (e : error).
Arguments Ok {A} a.
Arguments Raise {A} e.

(** ** Binary64: the floats of Python and NumPy *)

(** Python's [float] and NumPy's [float64] are IEEE 754 binary64, the
    primitive floats of Rocq.  What depends on how a number is rounded
    is computed here: the solver as the interpreter runs it, and the
    cumulated weights of the category draw. *)
Module Binary64.

Definition is_finite (x : float) : bool :=
  negb (is_nan x) && negb (is_infinity x).

(** The real number that a finite float stands for. *)
Definition B2R (x : float) : R :=
  match Prim2SF x with
  | S754_finite s m e =>
      let z := if s then Z.neg m else Z.pos m in
      if (0 <=? e)%Z then IZR (z * 2 ^ e) else IZR z / IZR (2 ^ (- e))
  | _ => 0
  end.

(** The same number as a fraction, to compute with. *)
Definition exact (x : float) : Q :=
  match Prim2SF x with
  | S754_finite s m e =>
      let z := if s then Z.neg m else Z.pos m in
      if (0 <=? e)%Z then inject_Z (z * 2 ^ e)
      else Qmake z (Z.to_pos (2 ^ (- e)))
  | _ => 0%Q
  end.

(** [x ** 2] on a Python float: the rounded product; a finite [x] whose
    square is out of range raises [OverflowError], an underflow to zero
    does not. *)
Definition py_pow2 (x : float) : result float :=
  let y := (x * x)%float in
  if is_finite x && is_infinity y then Raise OverflowError else Ok y.

(** [a / b] on Python floats. *)
Definition py_div (a b : float) : result float :=
  if (b =? 0)%float then Raise ZeroDivisionError else Ok (a / b)%float.

(** [np.maximum], [np.minimum]: a NaN first argument is returned. *)
Definition np_maximum (x y : float) : float :=
  if is_nan x || (y <=? x)%float then x else y.

Definition np_minimum (x y : float) : float :=
  if is_nan x || (x <=? y)%float then x else y.

(** [np.clip(x, lo, hi)] is [np.minimum(np.maximum(x, lo), hi)]. *)
Definition np_clip (x lo hi : float) : float :=
  np_minimum (np_maximum x lo) hi.

(** [nb_params] as the interpreter runs it.  [Ok None] stands for the
    pair [(None, None)]. *)
Definition nb_params (mean cv : float) : result (option (float * float)) :=
  match py_pow2 (cv * mean)%float with
  | Raise e => Raise e
  | Ok var =>
      if (var <=? mean)%float then Ok None
      else
        match py_pow2 mean with
        | Raise e => Raise e
        | Ok m2 =>
            match py_div m2 (var - mean)%float with
            | Raise e => Raise e
            | Ok r =>
                match py_div r (r + mean)%float with
                | Raise e => Raise e
                | Ok p => Ok (Some (r, np_clip p 1e-6 (1 - 1e-6))%float)
                end
            end
        end
  end.

End Binary64.

(** The legacy global [np.random] state.  The four primitive draws are
    those of the Mersenne-Twister state; how many words each one eats is
    its own business, so each returns the state it leaves. *)
Class RandomState : Type := {
  rng : Type;
  seed : Z -> rng;
  random_sample : rng -> R * rng;
  randint : Z -> Z -> rng -> Z * rng;
  poisson : R -> rng -> Z * rng;
  negative_binomial : R -> R -> rng -> Z * rng
}.

(** What NumPy documents of the draws: [random_sample] is in [[0, 1)],
    [randint(low, high)] in [[low, high)]. *)
Class RandomStateLaws (RS : RandomState) : Prop := {
  random_sample_range : forall s, 0 <= fst (random_sample s) < 1;
  randint_range : forall lo hi s,
      (lo < hi)%Z -> (lo <= fst (randint lo hi s) < hi)%Z
}.

Inductive category : Set := smooth | erratic | slow | lumpy.

Definition category_eqb (a b : category) : bool :=
  match a, b with
  | smooth, smooth | erratic, erratic | slow, slow | lumpy, lumpy => true
  | _, _ => false
  end.

(** [cat in (a, b)] *)
Definition cat_in (c : category) (cs : list category) : bool :=
  existsb (category_eqb c) cs.

(** ** Calendar: [datetime] dates as proleptic Gregorian ordinals *)

Module Calendar.

(** A date is its [toordinal()]: 0001-01-01 is day 1. *)
Definition date : Set := Z.

Definition days_from_civil (y m d : Z) : date :=
  (let y' := if m <=? 2 then y - 1 else y in
   let era := y' / 400 in
   let yoe := y' - era * 400 in
   let mp := if m >? 2 then m - 3 else m + 9 in
   let doy := (153 * mp + 2) / 5 + d - 1 in
   let doe := yoe * 365 + yoe / 4 - yoe / 100 + doy in
   era * 146097 + doe - 305)%Z.

Definition civil_from_days (o : date) : Z * Z * Z :=
  (let z := o + 305 in
   let era := z / 146097 in
   let doe := z - era * 146097 in
   let yoe := (doe - doe / 1460 + doe / 36524 - doe / 146096) / 365 in
   let doy := doe - (365 * yoe + yoe / 4 - yoe / 100) in
   let mp := (5 * doy + 2) / 153 in
   let d := doy - (153 * mp + 2) / 5 + 1 in
   let m := if mp <? 10 then mp + 3 else mp - 9 in
   let y := yoe + era * 400 in
   ((if m <=? 2 then y + 1 else y), m, d))%Z.

Definition year (o : date) : Z := fst (fst (civil_from_days o)).
Definition month (o : date) : Z := snd (fst (civil_from_days o)).
Definition day (o : date) : Z := snd (civil_from_days o).

(** [weekday()]: Monday is 0, Sunday is 6. *)
Definition weekday (o : date) : Z := ((o + 6) mod 7)%Z.

(** [pd.date_range(a, b, freq="D")] on parsed dates: every day from
    [a] to [b], both included; empty when [b] is before [a]. *)
Definition days_between (a b : date) : list date :=
  map (fun i => (a + Z.of_nat i)%Z) (seq 0 (Z.to_nat (b - a + 1))).

End Calendar.
Import Calendar.

(** ** Decimal formatting *)

Module Fmt.

Fixpoint zeros (k : nat) : string :=
  match k with
  | O => EmptyString
  | S k' => String "0" (zeros k')
  end.

(** [str(n)] for a natural number. *)
Definition decimal (n : N) : string := NilEmpty.string_of_uint (N.to_uint n).

(** The format spec [0wd] on a natural number: at least [w] digits,
    padded with zeros on the left. *)
Definition zero_padded (w : nat) (n : N) : string :=
  let s := decimal n in (zeros (w - String.length s) ++ s)%string.

(** [str(z)] for an integer. *)
Definition decimal_Z (z : Z) : string :=
  match z with
  | Z.neg p => String "-" (decimal (Npos p))
  | _ => decimal (Z.to_N z)
  end.

(** Reading a decimal back; leading zeros are ignored. *)
Definition read_decimal (s : string) : option N :=
  option_map N.of_uint (NilEmpty.uint_of_string s).

End Fmt.

(** [f"SKU-{idx+1:04d}"] *)
Definition sku_name (idx : nat) : string :=
  ("SKU-" ++ Fmt.zero_padded 4 (N.of_nat (idx + 1)))%string.

(** ** The table *)

(** One tuple [(cal_date, sku, qty)], a row of the data frame with
    columns "Demand Date", "Material", "Demand Size". *)
Record record : Set := mk_record {
  demand_date : date;
  material : string;
  demand_size : Z
}.

Definition table : Set := list record.

(** The sort key ["Material", "Demand Date"]: materials compare as
    strings, ties are broken by the date. *)
Definition key_leb (x y : record) : bool :=
  match String.compare (material x) (material y) with
  | Lt => true
  | Eq => (demand_date x <=? demand_date y)%Z
  | Gt => false
  end.

Definition key (r : record) : string * date := (material r, demand_date r).

Definition key_eq_dec (x y : string * date) : {x = y} + {x <> y}.
Proof. decide equality; [apply Z.eq_dec | apply string_dec]. Defined.

(** Item identifier ascending, then date ascending. *)
Definition key_le (x y : record) : Prop :=
  String.compare (material x) (material y) = Lt \/
  (material x = material y /\ (demand_date x <= demand_date y)%Z).

(** A stable sort by that key: each row goes in front of the first row
    of the sorted rest that is not below it. *)
Fixpoint insert_row (x : record) (l : table) : table :=
  match l with
  | [] => [x]
  | y :: l' => if key_leb x y then x :: l else y :: insert_row x l'
  end.

Fixpoint stable_sort (l : table) : table :=
  match l with
  | [] => []
  | x :: l' => insert_row x (stable_sort l')
  end.

(** [df.sort_values(["Material", "Demand Date"])] *)
Definition sort_values (df : table) : table := stable_sort df.

(** [df.to_csv(outfile, index=False)]: the lines of the file. *)
Definition csv_header : string := "Demand Date,Material,Demand Size".

Definition csv_date (o : date) : string :=
  (Fmt.zero_padded 4 (Z.to_N (year o)) ++ "-" ++
   Fmt.zero_padded 2 (Z.to_N (month o)) ++ "-" ++
   Fmt.zero_padded 2 (Z.to_N (day o)))%string.

Definition csv_row (r : record) : string :=
  (csv_date (demand_date r) ++ "," ++ material r ++ "," ++
   Fmt.decimal_Z (demand_size r))%string.

Definition to_csv (df : table) : list string := csv_header :: map csv_row df.

(** ** State and error monad *)

Module StateErr.

Definition M (S A : Type) : Type := S -> result (A * S).

Definition ret {S A} (a : A) : M S A := fun s => Ok (a, s).

Definition bind {S A B} (m : M S A) (k : A -> M S B) : M S B :=
  fun s =>
    match m s with
    | Ok (a, s') => k a s'
    | Raise e => Raise e
    end.

Definition raise {S A} (e : error) : M S A := fun _ => Raise e.

(** A draw cannot fail. *)
Definition draw {S A} (f : S -> A * S) : M S A := fun s => Ok (f s).

(** Run from an initial state and forget the final one. *)
Definition eval {S A} (m : M S A) (s : S) : result A :=
  match m s with
  | Ok (a, _) => Ok a
  | Raise e => Raise e
  end.

(** A computation that also reports the state it starts from. *)
Definition observed {S A} (m : M S A) : M S (A * S) :=
  fun s =>
    match m s with
    | Ok (a, s') => Ok ((a, s), s')
    | Raise e => Raise e
    end.

(** A [for] loop over [xs] that updates an accumulator. *)
Fixpoint for_each {S A B} (xs : list A) (body : A -> B -> M S B) (acc : B)
  : M S B :=
  match xs with
  | [] => ret acc
  | x :: xs' => bind (body x acc) (for_each xs' body)
  end.

(** A traversal that threads the state left to right. *)
Fixpoint for_all {S A B} (f : A -> M S B) (l : list A) : M S (list B) :=
  match l with
  | [] => ret []
  | x :: l' => bind (f x) (fun y =>
               bind (for_all f l') (fun ys => ret (y :: ys)))
  end.

(** A computation that cannot raise. *)
Definition total {S A} (m : M S A) : Prop :=
  forall s, exists a s', m s = Ok (a, s').

(** [l[i]] *)
Definition getitem {S A} (l : list A) (i : nat) : M S A :=
  match nth_error l i with
  | Some a => ret a
  | None => raise IndexError
  end.

Fixpoint dict_get {V} (d : list (Z * V)) (k : Z) : option V :=
  match d with
  | [] => None
  | (k', v) :: d' => if (k =? k')%Z then Some v else dict_get d' k
  end.

(** [d[k]] *)
Definition lookup {S V} (d : list (Z * V)) (k : Z) : M S V :=
  match dict_get d k with
  | Some v => ret v
  | None => raise KeyError
  end.

End StateErr.
Import StateErr.

Notation "x <- m ;; k" := (bind m (fun x => k))
  (at level 61, m at next level, right associativity).

(** ** The generator *)

Section Generator.

Context {RS : RandomState}.

(** [pd.to_datetime] on a string: the date it denotes, if any. *)
Variable to_datetime : string -> option date.

Definition G (A : Type) : Type := M rng A.

(** *** Library calls, in terms of the primitive draws *)

(** [np.random.rand()] *)
Definition np_rand : G R := draw random_sample.

(** [np.random.uniform(low, high)] is [low + (high - low) * random_sample()]. *)
Definition np_uniform (low high : R) : G R :=
  u <- draw random_sample ;; ret (low + (high - low) * u).

(** [np.random.randint(low, high)] *)
Definition np_randint (low high : Z) : G Z := draw (randint low high).

(** [poisson.rvs(mu)]: SciPy checks [mu >= 0] before drawing. *)
Definition poisson_rvs (mu : R) : G Z :=
  if Rleb 0 mu then draw (poisson mu) else raise DomainError.

(** [nbinom.rvs(n, p)]: SciPy checks [n > 0] and [0 < p <= 1]. *)
Definition nbinom_rvs (n p : R) : G Z :=
  if Rltb 0 n && Rltb 0 p && Rleb p 1
  then draw (negative_binomial n p)
  else raise DomainError.

(** [p.cumsum()] on an array of [float64]: each partial sum is
    rounded. *)
Fixpoint cumsum_from (acc : float) (p : list float) : list float :=
  match p with
  | [] => []
  | x :: p' => (acc + x)%float :: cumsum_from (acc + x)%float p'
  end.

(** [cdf = p.cumsum(); cdf /= cdf[-1]] *)
Definition cdf_of (p : list float) : list float :=
  let c := cumsum_from 0%float p in
  map (fun x => (x / last c 0)%float) c.

(** [cdf.searchsorted(u, side='right')] on an increasing [cdf]: the
    first position whose entry is above [u]. *)
Fixpoint searchsorted_right (cdf : list float) (u : R) : nat :=
  match cdf with
  | [] => O
  | c :: cdf' =>
      if Rleb (Binary64.B2R c) u then S (searchsorted_right cdf' u) else O
  end.

(** [random_sample(n)]: [n] draws, in order. *)
Fixpoint random_samples (n : nat) : G (list R) :=
  match n with
  | O => ret []
  | S n' => u <- draw random_sample ;;
            us <- random_samples n' ;;
            ret (u :: us)
  end.

Fixpoint take_items {A} (a : list A) (idx : list nat) : G (list A) :=
  match idx with
  | [] => ret []
  | i :: idx' => x <- getitem a i ;;
                 xs <- take_items a idx' ;;
                 ret (x :: xs)
  end.

(** [np.random.choice(a, size=size, p=p)]: a negative size is
    refused; else [size] uniform draws are taken at once and each is
    looked up in the cumulated weights. *)
Definition np_choice (a : list category) (size : Z) (p : list float)
  : G (list category) :=
  if (size <? 0)%Z then raise NegativeDimensions
  else
    let cdf := cdf_of p in
    uniform_samples <- random_samples (Z.to_nat size) ;;
    take_items a (map (searchsorted_right cdf) uniform_samples).

Definition pd_to_datetime (s : string) : G date :=
  match to_datetime s with
  | Some d => ret d
  | None => raise DateParseError
  end.

(** [pd.date_range(start, end, freq="D")] *)
Definition pd_date_range (start_date end_date : string) : G (list date) :=
  a <- pd_to_datetime start_date ;;
  b <- pd_to_datetime end_date ;;
  ret (days_between a b).

(** [range(n)] *)
Definition range (n : Z) : list nat := seq 0 (Z.to_nat n).

(** *** The daily rate *)

Definition dow_dict : list (Z * R) :=
  [(0%Z, 1.0); (1%Z, 1.0); (2%Z, 1.0); (3%Z, 1.0); (4%Z, 1.0);
   (5%Z, 0.6); (6%Z, 0.4)].

(** [lam_daily * max(1 - decay * max(yrs - peak_year, 0), 0.1)] *)
Definition lam_adj (lam_daily : R) (peak_year : Z) (decay : R)
           (t0 cal_date : date) : R :=
  let yrs := (year cal_date - year t0)%Z in
  lam_daily * py_max (1 - decay * IZR (Z.max (yrs - peak_year) 0)) 0.1.

(** [1.25 if cal_date.month in (7, 12) else 1.0] *)
Definition q_factor (cal_date : date) : R :=
  if ((month cal_date =? 7) || (month cal_date =? 12))%Z then 1.25 else 1.0.

Definition lam_today (lam_daily : R) (peak_year : Z) (decay : R)
           (t0 cal_date : date) (dow_factor : R) : R :=
  lam_adj lam_daily peak_year decay t0 cal_date * dow_factor
  * q_factor cal_date.

(** *** The two loop bodies and the main function *)

(** Body of [for cal_date in date_idx]. *)
Definition day_body (t0 : date) (sku : string) (lam_daily : R)
           (peak_year : Z) (decay mean_size : R) (nb : option (R * R))
           (cal_date : date) (recs : table) : G table :=
  dow_factor <- lookup dow_dict (weekday cal_date) ;;
  let lam := lam_today lam_daily peak_year decay t0 cal_date dow_factor in
  u <- np_rand ;;
  qty <- (if Rltb u lam
          then match nb with
               | None => x <- poisson_rvs mean_size ;; ret (Z.max 1 x)
               | Some (r_nb, p_nb) =>
                   x <- nbinom_rvs r_nb p_nb ;; ret (Z.max 1 x)
               end
          else ret 0%Z) ;;
  ret (recs ++ [mk_record cal_date sku qty]).

(** The per-SKU constants drawn at the top of the outer loop body:
    [lam_daily], [peak_year], [decay], [mean_size], [cv_size]. *)
Definition sku_params (cat : category) : G (R * Z * R * R * R) :=
  lam_daily <- (if cat_in cat [smooth; erratic]
                then np_uniform 0.7 1.0
                else u <- np_uniform (-3.5) (-1.0) ;; ret (Rpower 10 u)) ;;
  peak_year <- np_randint 1 4 ;;
  decay <- np_uniform 0.05 0.15 ;;
  mean_size <- np_uniform 1 10 ;;
  cv_size <- (if cat_in cat [smooth; slow]
              then np_uniform 0.3 0.6
              else np_uniform 0.8 2.5) ;;
  ret (lam_daily, peak_year, decay, mean_size, cv_size).

(** Body of [for idx in range(n_sku)]. *)
Definition sku_body (categories : list category) (date_idx : list date)
           (t0 : date) (idx : nat) (recs : table) : G table :=
  cat <- getitem categories idx ;;
  let sku := sku_name idx in
  params <- sku_params cat ;;
  let '(lam_daily, peak_year, decay, mean_size, cv_size) := params in
  let nb := nb_params mean_size cv_size in
  for_each date_idx
           (day_body t0 sku lam_daily peak_year decay mean_size nb) recs.

Definition generate_data_from (n_sku : Z) (start_date end_date : string)
  : G table :=
  categories <- np_choice [smooth; erratic; slow; lumpy] n_sku
                          [0.20; 0.20; 0.30; 0.30]%float ;;
  date_idx <- pd_date_range start_date end_date ;;
  t0 <- pd_to_datetime start_date ;;
  recs <- for_each (range n_sku) (sku_body categories date_idx t0) [] ;;
  ret (sort_values recs).

(** The part of [generate_data] that fills [recs], before the data
    frame is built and sorted. *)
Definition generate_rows (n_sku : Z) (start_date end_date : string)
  : G table :=
  categories <- np_choice [smooth; erratic; slow; lumpy] n_sku
                          [0.20; 0.20; 0.30; 0.30]%float ;;
  date_idx <- pd_date_range start_date end_date ;;
  t0 <- pd_to_datetime start_date ;;
  for_each (range n_sku) (sku_body categories date_idx t0) [].

(** The same loops with every call of the inner loop body recorded: for
    each item its five constants and, day by day, the rows that the call
    appends together with the state of the random stream in which the
    call starts. *)
Definition sku_trace (categories : list category) (date_idx : list date)
           (t0 : date) (idx : nat)
  : G ((R * Z * R * R * R) * list (table * rng)) :=
  cat <- getitem categories idx ;;
  let sku := sku_name idx in
  params <- sku_params cat ;;
  let '(lam_daily, peak_year, decay, mean_size, cv_size) := params in
  let nb := nb_params mean_size cv_size in
  calls <- for_all (fun cal_date =>
                      observed (day_body t0 sku lam_daily peak_year decay
                                         mean_size nb cal_date []))
                   date_idx ;;
  ret (params, calls).

Definition generate_trace (n_sku : Z) (start_date end_date : string)
  : G (list ((R * Z * R * R * R) * list (table * rng))) :=
  categories <- np_choice [smooth; erratic; slow; lumpy] n_sku
                          [0.20; 0.20; 0.30; 0.30]%float ;;
  date_idx <- pd_date_range start_date end_date ;;
  t0 <- pd_to_datetime start_date ;;
  for_all (sku_trace categories date_idx t0) (range n_sku).

(** The rows of a trace, in the order of the calls. *)
Definition trace_rows
           (traces : list ((R * Z * R * R * R) * list (table * rng)))
  : table :=
  List.concat (map (fun t => List.concat (map fst (snd t))) traces).

(** [np.random.seed(seed)]: an integer seed has to fit 32 bits. *)
Definition np_random_seed (sd : Z) : result rng :=
  if ((0 <=? sd) && (sd <? 2 ^ 32))%Z then Ok (seed sd) else Raise SeedError.

(** [generate_data]: seed the state, then run. *)
Definition generate_data (n_sku : Z) (start_date end_date : string)
           (sd : Z) : result table :=
  match np_random_seed sd with
  | Ok s => eval (generate_data_from n_sku start_date end_date) s
  | Raise e => Raise e
  end.

(** The entry point, after [parse_args]: the lines written to the
    output file, or the uncaught exception. *)
Record args : Set := mk_args {
  arg_sku : Z;
  arg_start : string;
  arg_end : string;
  arg_seed : Z
}.

Definition main (a : args) : result (list string) :=
  match generate_data (arg_sku a) (arg_start a) (arg_end a) (arg_seed a) with
  | Ok df_syn => Ok (to_csv df_syn)
  | Raise e => Raise e
  end.

End Generator.

(** ** The generator in the words of the specification *)

Inductive day_name : Set :=
  Monday | Tuesday | Wednesday | Thursday | Friday | Saturday | Sunday.

(** Weekday indexing: Monday is 0, Sunday is 6. *)
Definition day_name_of (d : date) : day_name :=
  nth (Z.to_nat (weekday d))
      [Monday; Tuesday; Wednesday; Thursday; Friday; Saturday; Sunday] Monday.

Definition dowFactor (n : day_name) : R :=
  match n with
  | Saturday => 0.6
  | Sunday => 0.4
  | _ => 1.0
  end.

Definition July : Z := 7.
Definition December : Z := 12.

Definition seasonalFactor (m : Z) : R :=
  if ((m =? July) || (m =? December))%Z then 1.25 else 1.0.

(** Section 4.3, steps 1 to 5. *)
Definition effectiveRate (dailyRate : R) (peakYear : Z) (decayRate : R)
           (startYear calendarYear : Z) (dow : day_name) (m : Z) : R :=
  dailyRate
  * Rmax (1 - decayRate * IZR (Z.max (calendarYear - startYear - peakYear) 0))
         0.1
  * dowFactor dow * seasonalFactor m.

(** The inclusive day count of a window. *)
Definition numDaysInclusive (a b : date) : Z := (b - a + 1)%Z.

(** The (item, day) pairs of a table of [n] items over [days]. *)
Definition all_keys (n : nat) (days : list date) : list (string * date) :=
  flat_map (fun idx => map (fun d => (sku_name idx, d)) days) (seq 0 n).

Inductive size_distribution : Type :=
| Poisson (mean : R)
| NegativeBinomial (r p : R).

(** Section 4.2. *)
Definition solve_distribution (mean cv : R) : size_distribution :=
  let variance := (cv * mean) ^ 2 in
  if Rle_dec variance mean then Poisson mean
  else
    let r := mean ^ 2 / (variance - mean) in
    let p := r / (r + mean) in
    NegativeBinomial r (Rmin (Rmax p 1e-6) (1 - 1e-6)).

Record item : Type := mk_item {
  dailyRate : R;
  peakYear : Z;
  decayRate : R;
  meanSize : R;
  cvSize : R
}.

Section Reference.

Context {RS : RandomState}.

(** Section 4.1: one categorical draw with weights 20/20/30/30.  The
    draw falls into the first class whose cumulated weight, a sum of
    floats, is above it. *)
Definition draw_category : G category :=
  u <- draw random_sample ;;
  ret (if Rlt_dec u (Binary64.B2R 0.2) then smooth
       else if Rlt_dec u (Binary64.B2R (0.2 + 0.2)) then erratic
       else if Rlt_dec u (Binary64.B2R (0.2 + 0.2 + 0.3)) then slow
       else lumpy).

Definition uniform (lo hi : R) : G R :=
  u <- draw random_sample ;; ret (lo + (hi - lo) * u).

(** Section 4.1: the fields of one item, in the order of the list. *)
Definition draw_item (c : category) : G item :=
  rate <- match c with
          | smooth | erratic => uniform 0.7 1.0
          | slow | lumpy => u <- uniform (-3.5) (-1.0) ;; ret (Rpower 10 u)
          end ;;
  peak <- draw (randint 1 4) ;;
  decay <- uniform 0.05 0.15 ;;
  mean <- uniform 1 10 ;;
  cv <- match c with
        | smooth | slow => uniform 0.3 0.6
        | erratic | lumpy => uniform 0.8 2.5
        end ;;
  ret (mk_item rate peak decay mean cv).

Definition draw_size (d : size_distribution) : G Z :=
  match d with
  | Poisson mean => draw (poisson mean)
  | NegativeBinomial r p => draw (negative_binomial r p)
  end.

(** Section 4.3, steps 6 and 7. *)
Definition draw_quantity (it : item) (dist : size_distribution)
           (start day : date) : G Z :=
  let rate := effectiveRate (dailyRate it) (peakYear it) (decayRate it)
                            (year start) (year day) (day_name_of day)
                            (month day) in
  u <- draw random_sample ;;
  if Rlt_dec u rate
  then x <- draw_size dist ;; ret (Z.max 1 x)
  else ret 0%Z.

(** One item: its fields, then one quantity per day of the window. *)
Definition item_series (idx : nat) (c : category) (start : date)
           (days : list date) : G table :=
  it <- draw_item c ;;
  let dist := solve_distribution (meanSize it) (cvSize it) in
  for_all (fun day => q <- draw_quantity it dist start day ;;
                      ret (mk_record day (sku_name idx) q)) days.

(** Section 4.4. *)
Definition assemble (series : list table) : table :=
  sort_values (List.concat series).

(** The order of the claim: item by item, the category of an item
    drawn right before its fields. *)
Definition item_major (n : nat) (a b : date) : G table :=
  series <- for_all (fun idx => c <- draw_category ;;
                                item_series idx c a (days_between a b))
                    (seq 0 n) ;;
  ret (assemble series).

(** The order with all categories drawn ahead of the items. *)
Definition categories_first (n : nat) (a b : date) : G table :=
  cats <- for_all (fun _ => draw_category) (seq 0 n) ;;
  series <- for_all (fun ic => item_series (fst ic) (snd ic) a
                                           (days_between a b))
                    (combine (seq 0 n) cats) ;;
  ret (assemble series).

End Reference.

(** ** A small concrete setting to run the model in *)

Module Fixture.

(** The uniform draw at position [k] of the stream: the hundredths
    0, 37, 74, 11, 48, 85, 22, 59, 96, 33, ... *)
Definition unit_fraction (k : nat) : R :=
  IZR ((Z.of_nat k * 37) mod 100) / 100.

(** A random state that is a position in a fixed stream; every draw
    eats one position, the integer draws give a residue of it. *)
Definition counter_stream : RandomState := {|
  rng := nat;
  seed := Z.abs_nat;
  random_sample := fun k => (unit_fraction k, S k);
  randint := fun lo hi k => ((lo + Z.of_nat k mod (hi - lo))%Z, S k);
  poisson := fun _ k => ((Z.of_nat k mod 5)%Z, S k);
  negative_binomial := fun _ _ k => ((Z.of_nat k mod 5)%Z, S k)
|}.

Definition digit (c : ascii) : option Z :=
  let n := (Z.of_N (N_of_ascii c) - 48)%Z in
  if ((0 <=? n) && (n <=? 9))%Z then Some n else None.

Fixpoint number (acc : Z) (cs : list ascii) : option Z :=
  match cs with
  | [] => Some acc
  | c :: cs' =>
      match digit c with
      | Some n => number (10 * acc + n)%Z cs'
      | None => None
      end
  end.

(** Dates written [YYYY-MM-DD], nothing else. *)
Definition iso_date (s : string) : option date :=
  match list_ascii_of_string s with
  | [y1; y2; y3; y4; sep1; m1; m2; sep2; d1; d2] =>
      if (Ascii.eqb sep1 "-" && Ascii.eqb sep2 "-")%bool then
        match number 0 [y1; y2; y3; y4], number 0 [m1; m2],
              number 0 [d1; d2] with
        | Some y, Some m, Some d =>
            let o := days_from_civil y m d in
            if ((year o =? y) && (month o =? m) && (day o =? d))%Z
            then Some o else None
        | _, _, _ => None
        end
      else None
  | _ => None
  end.

(** Four days of 2023, as ordinals. *)
Definition jan_1 : date := 738521%Z.   (* 2023-01-01, a Sunday *)
Definition jan_2 : date := 738522%Z.   (* 2023-01-02, a Monday *)
Definition jan_7 : date := 738527%Z.   (* 2023-01-07, a Saturday *)
Definition jul_3 : date := 738704%Z.   (* 2023-07-03, a Monday *)

End Fixture.

(** * Properties *)

(** ** Comparisons, [max] and [clip] *)

Lemma Rleb_true_iff (x y : R) : Rleb x y = true <-> x <= y.
Proof. unfold Rleb. destruct (Rle_dec x y); split; intros; try easy. Qed.

Lemma Rleb_false_iff (x y : R) : Rleb x y = false <-> y < x.
Proof.
  unfold Rleb. destruct (Rle_dec x y); split; intros; try easy; lra.
Qed.

Lemma Rltb_true_iff (x y : R) : Rltb x y = true <-> x < y.
Proof. unfold Rltb. destruct (Rlt_dec x y); split; intros; try easy. Qed.

Lemma Rltb_false_iff (x y : R) : Rltb x y = false <-> y <= x.
Proof.
  unfold Rltb. destruct (Rlt_dec x y); split; intros; try easy; lra.
Qed.

Lemma py_max_Rmax (x y : R) : py_max x y = Rmax x y.
Proof.
  unfold py_max, Rmax, Rltb.
  destruct (Rlt_dec x y), (Rle_dec x y); lra.
Qed.

Lemma np_clip_bounds (x lo hi : R) : lo <= hi -> lo <= np_clip x lo hi <= hi.
Proof.
  intros Hlh. unfold np_clip, Rmin, Rmax.
  destruct (Rle_dec x lo); destruct (Rle_dec _ hi); lra.
Qed.

Lemma np_clip_cases (x lo hi : R) :
  lo <= hi ->
  (lo <= x <= hi -> np_clip x lo hi = x) /\
  (x < lo -> np_clip x lo hi = lo) /\
  (hi < x -> np_clip x lo hi = hi).
Proof.
  intros Hlh. unfold np_clip, Rmin, Rmax.
  destruct (Rle_dec x lo); destruct (Rle_dec _ hi); repeat split; lra.
Qed.

(** ** The solver *)

Lemma variance_le_mean_iff (mean cv : R) :
  0 < mean -> ((cv * mean) ^ 2 <= mean <-> cv ^ 2 * mean <= 1).
Proof.
  intros Hm.
  replace ((cv * mean) ^ 2) with (cv ^ 2 * mean * mean) by ring.
  split; intros H.
  - apply Rmult_le_reg_r with mean; lra.
  - apply Rmult_le_compat_r with (r := mean) in H; lra.
Qed.

Lemma nb_params_None (mean cv : R) :
  nb_params mean cv = None <-> (cv * mean) ^ 2 <= mean.
Proof.
  unfold nb_params.
  destruct (Rleb ((cv * mean) ^ 2) mean) eqn:E.
  - apply Rleb_true_iff in E. tauto.
  - apply Rleb_false_iff in E. split; [discriminate | lra].
Qed.

Lemma nb_params_Some (mean cv : R) :
  mean < (cv * mean) ^ 2 ->
  let r := mean ^ 2 / ((cv * mean) ^ 2 - mean) in
  nb_params mean cv = Some (r, np_clip (r / (r + mean)) 1e-6 (1 - 1e-6)).
Proof.
  intros H r. unfold nb_params.
  destruct (Rleb ((cv * mean) ^ 2) mean) eqn:E; [| reflexivity].
  apply Rleb_true_iff in E. lra.
Qed.

Lemma nb_shape_positive (mean cv : R) :
  0 < mean -> mean < (cv * mean) ^ 2 ->
  0 < mean ^ 2 / ((cv * mean) ^ 2 - mean).
Proof.
  intros Hm Hv. apply Rdiv_lt_0_compat; [nra | lra].
Qed.

(** In exact arithmetic, on mean > 0 and cv >= 0, the solver answers
    "use Poisson" exactly when (cv*mean)^2 <= mean, which is when
    cv^2 * mean <= 1; otherwise it answers r = mean^2 / (variance - mean)
    together with p = r / (r + mean) clipped into [1e-6, 1 - 1e-6]. *)
Lemma nb_params_correct (mean cv : R) :
  0 < mean -> 0 <= cv ->
  let variance := (cv * mean) ^ 2 in
  let r := mean ^ 2 / (variance - mean) in
  let p := r / (r + mean) in
  (nb_params mean cv = None <-> variance <= mean) /\
  (variance <= mean <-> cv ^ 2 * mean <= 1) /\
  (mean < variance ->
   nb_params mean cv = Some (r, np_clip p 1e-6 (1 - 1e-6)) /\
   1e-6 <= np_clip p 1e-6 (1 - 1e-6) <= 1 - 1e-6 /\
   (1e-6 <= p <= 1 - 1e-6 -> np_clip p 1e-6 (1 - 1e-6) = p) /\
   (p < 1e-6 -> np_clip p 1e-6 (1 - 1e-6) = 1e-6) /\
   (1 - 1e-6 < p -> np_clip p 1e-6 (1 - 1e-6) = 1 - 1e-6)).
Proof.
  intros Hm Hcv variance r p. split; [| split].
  - apply nb_params_None.
  - now apply variance_le_mean_iff.
  - intros Hv. split; [now apply nb_params_Some |].
    split; [apply np_clip_bounds; lra | apply np_clip_cases; lra].
Qed.

(** ** The calendar and the rate *)

Lemma weekday_range (d : date) : (0 <= weekday d < 7)%Z.
Proof. unfold weekday. apply Z.mod_pos_bound. lia. Qed.

Lemma weekday_cases (d : date) :
  (weekday d = 0 \/ weekday d = 1 \/ weekday d = 2 \/ weekday d = 3 \/
   weekday d = 4 \/ weekday d = 5 \/ weekday d = 6)%Z.
Proof. pose proof (weekday_range d). lia. Qed.

Lemma dow_lookup (d : date) :
  dict_get dow_dict (weekday d) = Some (dowFactor (day_name_of d)).
Proof.
  unfold day_name_of.
  destruct (weekday_cases d) as [E | [E | [E | [E | [E | [E | E]]]]]];
    rewrite E; reflexivity.
Qed.

Lemma dowFactor_range (n : day_name) : 0.4 <= dowFactor n <= 1.
Proof. destruct n; simpl; lra. Qed.

Lemma q_factor_seasonal (d : date) : q_factor d = seasonalFactor (month d).
Proof. reflexivity. Qed.

Lemma seasonalFactor_range (m : Z) : 1 <= seasonalFactor m <= 1.25.
Proof.
  unfold seasonalFactor. destruct (_ || _)%bool; lra.
Qed.

Lemma seasonalFactor_cases (m : Z) :
  (m = July \/ m = December -> seasonalFactor m = 1.25) /\
  (m <> July /\ m <> December -> seasonalFactor m = 1.0).
Proof.
  unfold seasonalFactor. split.
  - intros [-> | ->]; reflexivity.
  - intros [H7 H12].
    apply Z.eqb_neq in H7. apply Z.eqb_neq in H12.
    now rewrite H7, H12.
Qed.

Lemma lam_today_effectiveRate (lam_daily : R) (peak_year : Z) (decay : R)
      (t0 d : date) :
  lam_today lam_daily peak_year decay t0 d (dowFactor (day_name_of d))
  = effectiveRate lam_daily peak_year decay (year t0) (year d)
                  (day_name_of d) (month d).
Proof.
  unfold lam_today, lam_adj, effectiveRate.
  now rewrite py_max_Rmax, q_factor_seasonal.
Qed.

(** The ageing factor stays between one tenth and one. *)
Lemma ageing_range (decay : R) (k : Z) :
  0 <= decay -> 0.1 <= Rmax (1 - decay * IZR (Z.max k 0)) 0.1 <= 1.
Proof.
  intros Hd.
  assert (Hk : 0 <= IZR (Z.max k 0)) by (apply IZR_le; lia).
  assert (0 <= decay * IZR (Z.max k 0)) by now apply Rmult_le_pos.
  unfold Rmax. destruct (Rle_dec _ _); lra.
Qed.

Lemma ageing_floor (decay : R) (k : Z) :
  0.1 <= Rmax (1 - decay * IZR (Z.max k 0)) 0.1.
Proof. apply Rmax_r. Qed.

Lemma effectiveRate_upper (rate : R) (peak : Z) (decay : R)
      (y0 y : Z) (n : day_name) (m : Z) :
  0 <= rate -> 0 <= decay ->
  effectiveRate rate peak decay y0 y n m <= rate * 1.25.
Proof.
  intros Hr Hd. unfold effectiveRate.
  pose proof (ageing_range decay (y - y0 - peak) Hd) as Ha.
  pose proof (dowFactor_range n) as Hn.
  pose proof (seasonalFactor_range m) as Hs.
  set (a := Rmax _ _) in *. set (w := dowFactor n) in *.
  set (q := seasonalFactor m) in *.
  assert (rate * a <= rate) by nra.
  assert (0 <= rate * a) by nra.
  assert (rate * a * w <= rate) by nra.
  assert (0 <= rate * a * w) by nra.
  nra.
Qed.

Lemma pow10_le_tenth (u : R) : u <= -1 -> Rpower 10 u <= 0.1.
Proof.
  intros Hu.
  apply Rle_trans with (Rpower 10 (-1)).
  - apply Rle_Rpower; lra.
  - replace (-1) with (Ropp 1) by lra.
    rewrite Rpower_Ropp, Rpower_1 by lra. lra.
Qed.

Lemma pow10_pos (u : R) : 0 < Rpower 10 u.
Proof. unfold Rpower. apply exp_pos. Qed.


(** ** Runs of the state and error monad *)

Section Runs.

Context {S : Type}.

Lemma bind_ok {A B} (m : M S A) (k : A -> M S B) s a s' :
  m s = Ok (a, s') -> bind m k s = k a s'.
Proof. unfold bind. now intros ->. Qed.

Lemma bind_raise {A B} (m : M S A) (k : A -> M S B) s e :
  m s = Raise e -> bind m k s = Raise e.
Proof. unfold bind. now intros ->. Qed.

Lemma bind_ext {A B} (m : M S A) (k1 k2 : A -> M S B) s :
  (forall a s', k1 a s' = k2 a s') -> bind m k1 s = bind m k2 s.
Proof. intros H. unfold bind. destruct (m s) as [[a s'] | e]; auto. Qed.

Lemma bind_ret_l {A B} (a : A) (k : A -> M S B) s : bind (ret a) k s = k a s.
Proof. reflexivity. Qed.

Lemma bind_draw {A B} (f : S -> A * S) (k : A -> M S B) s :
  bind (draw f) k s = k (fst (f s)) (snd (f s)).
Proof. unfold bind, draw. now destruct (f s). Qed.

Lemma bind_cong {A B} (m1 m2 : M S A) (k : A -> M S B) s :
  m1 s = m2 s -> bind m1 k s = bind m2 k s.
Proof. unfold bind. now intros ->. Qed.

Lemma bind_assoc {A B C} (m : M S A) (k : A -> M S B) (h : B -> M S C) s :
  bind (bind m k) h s = bind m (fun a => bind (k a) h) s.
Proof. unfold bind. destruct (m s) as [[a s'] | e]; auto. Qed.

Lemma bind_inv {A B} (m : M S A) (k : A -> M S B) s b s2 :
  bind m k s = Ok (b, s2) ->
  exists a s1, m s = Ok (a, s1) /\ k a s1 = Ok (b, s2).
Proof.
  unfold bind. destruct (m s) as [[a s1] | e]; [| discriminate].
  intros H. now exists a, s1.
Qed.

Lemma total_ret {A} (a : A) : total (@ret S A a).
Proof. intros s. now exists a, s. Qed.

Lemma total_draw {A} (f : S -> A * S) : total (draw f).
Proof. intros s. exists (fst (f s)), (snd (f s)). unfold draw. now destruct (f s). Qed.

Lemma total_bind {A B} (m : M S A) (k : A -> M S B) :
  total m -> (forall a, total (k a)) -> total (bind m k).
Proof.
  intros Hm Hk s. destruct (Hm s) as (a & s1 & E).
  destruct (Hk a s1) as (b & s2 & E2).
  exists b, s2. now rewrite (bind_ok _ _ _ _ _ E).
Qed.

Lemma total_for_all {A B} (f : A -> M S B) (l : list A) :
  (forall x, total (f x)) -> total (for_all f l).
Proof.
  intros Hf. induction l as [| x l IH]; simpl.
  - apply total_ret.
  - apply total_bind; [apply Hf |]. intros y.
    apply total_bind; [apply IH |]. intros ys. apply total_ret.
Qed.

Lemma for_all_length {A B} (f : A -> M S B) (l : list A) s ys s' :
  for_all f l s = Ok (ys, s') -> List.length ys = List.length l.
Proof.
  revert s ys s'. induction l as [| x l IH]; simpl; intros s ys s' H.
  - inversion H. reflexivity.
  - apply bind_inv in H. destruct H as (y & s1 & _ & H).
    apply bind_inv in H. destruct H as (ys' & s2 & H & E).
    inversion E; subst. simpl. f_equal. eauto.
Qed.

Lemma for_all_ext {A B} (f g : A -> M S B) (l : list A) :
  (forall x, In x l -> forall s, f x s = g x s) ->
  forall s, for_all f l s = for_all g l s.
Proof.
  induction l as [| x l IH]; intros H s; simpl; [reflexivity |].
  unfold bind. rewrite (H x) by now left.
  destruct (g x s) as [[y s1] | e]; [| reflexivity].
  rewrite IH; [reflexivity |]. intros z Hz. apply H. now right.
Qed.

(** A loop that appends one row per element is a traversal. *)
Lemma for_each_snoc {A B} (f : A -> M S B) (body : A -> list B -> M S (list B))
      (xs : list A) :
  (forall x acc s, body x acc s = bind (f x) (fun y => ret (acc ++ [y])) s) ->
  forall acc s,
    for_each xs body acc s
    = bind (for_all f xs) (fun ys => ret (acc ++ ys)) s.
Proof.
  intros Hb. induction xs as [| x xs IH]; intros acc s; simpl.
  - unfold bind, ret. now rewrite app_nil_r.
  - unfold bind at 1. rewrite Hb. unfold bind.
    destruct (f x s) as [[y s1] | e]; [| reflexivity].
    simpl. rewrite IH. unfold bind.
    destruct (for_all f xs s1) as [[ys s2] | e]; [| reflexivity].
    unfold ret. now rewrite <- app_assoc.
Qed.

(** A loop that appends a block of rows per element is a traversal
    followed by a concatenation. *)
Lemma for_each_blocks {A B} (f : A -> M S (list B))
      (body : A -> list B -> M S (list B)) (xs : list A) :
  (forall x, In x xs -> forall acc s,
        body x acc s = bind (f x) (fun ys => ret (acc ++ ys)) s) ->
  forall acc s,
    for_each xs body acc s
    = bind (for_all f xs) (fun yss => ret (acc ++ List.concat yss)) s.
Proof.
  induction xs as [| x xs IH]; intros Hb acc s; simpl.
  - unfold bind, ret. now rewrite app_nil_r.
  - unfold bind at 1. rewrite Hb by now left. unfold bind.
    destruct (f x s) as [[ys s1] | e]; [| reflexivity].
    simpl. rewrite IH by (intros z Hz; apply Hb; now right). unfold bind.
    destruct (for_all f xs s1) as [[yss s2] | e]; [| reflexivity].
    unfold ret. simpl. now rewrite <- app_assoc.
Qed.

Lemma getitem_nth {A} (l : list A) (i : nat) (a : A) (s : S) :
  nth_error l i = Some a -> getitem l i s = Ok (a, s).
Proof. unfold getitem. now intros ->. Qed.

(** Walking the indices of a list and reading each element is walking
    the list with its indices. *)
Lemma for_all_indexed {A B} (g : nat -> A -> M S B) (pre cs : list A) :
  forall s,
    for_all (fun i => bind (getitem (pre ++ cs) i) (g i))
            (seq (List.length pre) (List.length cs)) s
    = for_all (fun ic => g (fst ic) (snd ic))
              (combine (seq (List.length pre) (List.length cs)) cs) s.
Proof.
  revert pre. induction cs as [| c cs IH]; intros pre s; [reflexivity |].
  simpl. rewrite bind_assoc.
  assert (E : getitem (pre ++ c :: cs) (List.length pre) s = Ok (c, s)).
  { apply getitem_nth. rewrite nth_error_app2 by lia.
    now rewrite Nat.sub_diag. }
  rewrite (bind_ok _ _ _ _ _ E).
  apply bind_ext. intros y s1. apply bind_cong.
  specialize (IH (pre ++ [c]) s1).
  rewrite <- app_assoc, length_app, Nat.add_1_r in IH. exact IH.
Qed.

End Runs.

(** ** The draws *)

Section Draws.

Context {RS : RandomState} {RL : RandomStateLaws RS}.

Lemma np_uniform_run (lo hi : R) (s : rng) :
  np_uniform lo hi s
  = Ok (lo + (hi - lo) * fst (random_sample s), snd (random_sample s)).
Proof.
  unfold np_uniform, bind, draw, ret. now destruct (random_sample s).
Qed.

Lemma uniform_range (lo hi : R) (s : rng) :
  lo <= hi ->
  lo <= lo + (hi - lo) * fst (random_sample s) <= hi.
Proof.
  intros H. pose proof (random_sample_range s) as Hu. nra.
Qed.

Lemma np_randint_run (lo hi : Z) (s : rng) :
  np_randint lo hi s = Ok (fst (randint lo hi s), snd (randint lo hi s)).
Proof. unfold np_randint, draw. now destruct (randint lo hi s). Qed.

(** The cumulated weights of the four categories. *)
(** The cumulated weights, as NumPy computes them: the third one is
    the float 0.7, which is below the real number 0.7. *)
Lemma cdf_categories :
  cdf_of [0.20; 0.20; 0.30; 0.30]%float
  = [0.2; 0.2 + 0.2; 0.2 + 0.2 + 0.3; 1]%float.
Proof. vm_compute. reflexivity. Qed.

Lemma B2R_fraction (x : float) (s : bool) (m : positive) (e z d : Z) :
  Prim2SF x = S754_finite s m e -> (e < 0)%Z ->
  (if s then Z.neg m else Z.pos m) = z -> (2 ^ (- e))%Z = d ->
  Binary64.B2R x = IZR z / IZR d.
Proof.
  intros Hx He <- <-. unfold Binary64.B2R. rewrite Hx.
  destruct (Z.leb_spec 0 e); [lia | reflexivity].
Qed.

Lemma category_thresholds :
  Binary64.B2R 0.2 = 7205759403792794 / 36028797018963968 /\
  Binary64.B2R (0.2 + 0.2) = 7205759403792794 / 18014398509481984 /\
  Binary64.B2R (0.2 + 0.2 + 0.3) = 6305039478318694 / 9007199254740992 /\
  Binary64.B2R 1 = 1.
Proof.
  split; [| split; [| split]].
  - exact (B2R_fraction 0.2 false 7205759403792794 (-55)
                        7205759403792794 36028797018963968
                        eq_refl eq_refl eq_refl eq_refl).
  - exact (B2R_fraction (0.2 + 0.2) false 7205759403792794 (-54)
                        7205759403792794 18014398509481984
                        eq_refl eq_refl eq_refl eq_refl).
  - exact (B2R_fraction (0.2 + 0.2 + 0.3) false 6305039478318694 (-53)
                        6305039478318694 9007199254740992
                        eq_refl eq_refl eq_refl eq_refl).
  - rewrite (B2R_fraction 1 false 4503599627370496 (-52)
                          4503599627370496 4503599627370496
                          eq_refl eq_refl eq_refl eq_refl).
    lra.
Qed.

Lemma searchsorted_category (u : R) :
  0 <= u < 1 ->
  nth_error [smooth; erratic; slow; lumpy]
            (searchsorted_right (cdf_of [0.20; 0.20; 0.30; 0.30]%float) u)
  = Some (if Rlt_dec u (Binary64.B2R 0.2) then smooth
          else if Rlt_dec u (Binary64.B2R (0.2 + 0.2)) then erratic
          else if Rlt_dec u (Binary64.B2R (0.2 + 0.2 + 0.3)) then slow
          else lumpy).
Proof.
  intros Hu. rewrite cdf_categories.
  destruct category_thresholds as (T1 & T2 & T3 & T4).
  cbn [searchsorted_right]. unfold Rleb. rewrite T4.
  set (t1 := Binary64.B2R 0.2) in *.
  set (t2 := Binary64.B2R (0.2 + 0.2)) in *.
  set (t3 := Binary64.B2R (0.2 + 0.2 + 0.3)) in *.
  destruct (Rlt_dec u t1), (Rle_dec t1 u); try lra; [reflexivity |].
  destruct (Rlt_dec u t2), (Rle_dec t2 u); try lra; [reflexivity |].
  destruct (Rlt_dec u t3), (Rle_dec t3 u); try lra; [reflexivity |].
  destruct (Rle_dec 1 u); [lra | reflexivity].
Qed.

Lemma random_samples_range (n : nat) (s : rng) us s' :
  random_samples n s = Ok (us, s') -> Forall (fun u => 0 <= u < 1) us.
Proof.
  revert s us s'. induction n as [| n IH]; simpl; intros s us s' H.
  - inversion H. constructor.
  - apply bind_inv in H. destruct H as (u & s1 & Hu & H).
    apply bind_inv in H. destruct H as (us' & s2 & H & E).
    inversion E; subst. constructor; [| eauto].
    unfold draw in Hu. inversion Hu.
    pose proof (random_sample_range s) as R. now rewrite H1 in R.
Qed.

(** Drawing [n] samples at once and looking each one up afterwards is
    drawing and looking up one at a time. *)
Lemma choice_loop (cats : list category) (cdf : list float)
      (cat_of : R -> category) :
  (forall u, 0 <= u < 1 ->
             nth_error cats (searchsorted_right cdf u) = Some (cat_of u)) ->
  forall (n k : nat) (s : rng),
    bind (random_samples n)
         (fun us => take_items cats (map (searchsorted_right cdf) us)) s
    = for_all (fun _ => bind (draw random_sample)
                             (fun u => ret (cat_of u)))
              (seq k n) s.
Proof.
  intros Hcat. induction n as [| n IH]; intros k s; [reflexivity |].
  cbn [random_samples seq for_all].
  rewrite !bind_assoc, !bind_draw, bind_ret_l, bind_assoc.
  etransitivity; [| apply bind_cong; apply (IH (Datatypes.S k))].
  rewrite bind_assoc.
  apply bind_ext. intros us s2.
  rewrite bind_ret_l. cbn [map take_items].
  rewrite (bind_ok _ _ _ _ _ (getitem_nth _ _ _ s2
                                (Hcat _ (random_sample_range s)))).
  reflexivity.
Qed.

(** The batch draw of [n] categories is [n] single categorical draws. *)
Lemma np_choice_categories (n k : nat) (s : rng) :
  np_choice [smooth; erratic; slow; lumpy] (Z.of_nat n)
            [0.20; 0.20; 0.30; 0.30]%float s
  = for_all (fun _ => draw_category) (seq k n) s.
Proof.
  unfold np_choice.
  replace (Z.of_nat n <? 0)%Z with false by (symmetry; apply Z.ltb_ge; lia).
  rewrite Nat2Z.id.
  apply (choice_loop _ _ _ searchsorted_category).
Qed.

(** *** The constants of one SKU *)

Ltac sample_ranges :=
  repeat match goal with
         | |- context [fst (random_sample ?s)] =>
             lazymatch goal with
             | H : 0 <= fst (random_sample s) < 1 |- _ => fail
             | _ => pose proof (random_sample_range s)
             end
         end.

Lemma sku_params_run (cat : category) (s : rng) :
  exists lam pk dec mean cv s',
    sku_params cat s = Ok ((lam, pk, dec, mean, cv), s') /\
    draw_item cat s = Ok (mk_item lam pk dec mean cv, s') /\
    0 < lam <= 1 /\ (1 <= pk < 4)%Z /\ 0.05 <= dec <= 0.15 /\
    1 <= mean <= 10 /\ 0.3 <= cv <= 2.5 /\
    (cat = smooth \/ cat = erratic -> 0.7 <= lam) /\
    (cat = slow \/ cat = lumpy -> lam <= 0.1) /\
    (cat = slow \/ cat = lumpy ->
     lam = Rpower 10 (-3.5 + (-1.0 - -3.5) * fst (random_sample s))).
Proof.
  unfold sku_params, draw_item, np_uniform, uniform, np_randint.
  destruct cat; cbn [cat_in existsb category_eqb orb];
    rewrite ?bind_assoc, ?bind_draw, ?bind_ret_l;
    repeat (rewrite ?bind_assoc, ?bind_draw, ?bind_ret_l);
    do 6 eexists; (split; [reflexivity |]); (split; [reflexivity |]);
    sample_ranges;
    repeat match goal with
           | |- context [Rpower 10 ?u] =>
               lazymatch goal with
               | H : 0 < Rpower 10 u |- _ => fail
               | _ => pose proof (pow10_pos u);
                      assert (Rpower 10 u <= 0.1)
                        by (apply pow10_le_tenth; lra)
               end
           end;
    repeat split;
    try (apply randint_range; lia);
    try (intros [HC | HC]; discriminate HC);
    try (intros _; reflexivity);
    try lra.
Qed.

(** *** One day *)

(** The arguments that [nb_params] hands to the negative binomial
    sampler pass SciPy's check. *)
Lemma nbinom_args_valid (mean cv r p : R) :
  0 < mean -> nb_params mean cv = Some (r, p) ->
  Rltb 0 r && Rltb 0 p && Rleb p 1 = true.
Proof.
  intros Hm H.
  assert (E : mean < (cv * mean) ^ 2).
  { destruct (Rle_dec ((cv * mean) ^ 2) mean) as [L | L]; [| lra].
    apply nb_params_None in L. congruence. }
  pose proof (nb_params_Some mean cv E) as HS. cbv zeta in HS.
  assert (Er : r = mean ^ 2 / ((cv * mean) ^ 2 - mean)) by congruence.
  assert (Ep : p = np_clip (r / (r + mean)) 1e-6 (1 - 1e-6))
    by (rewrite Er; congruence).
  pose proof (nb_shape_positive mean cv Hm E) as Hr. rewrite <- Er in Hr.
  pose proof (np_clip_bounds (r / (r + mean)) 1e-6 (1 - 1e-6) ltac:(lra))
    as Hp.
  rewrite <- Ep in Hp.
  rewrite !andb_true_iff, !Rltb_true_iff, Rleb_true_iff. lra.
Qed.

Lemma nb_params_solve (mean cv : R) :
  solve_distribution mean cv
  = match nb_params mean cv with
    | None => Poisson mean
    | Some (r, p) => NegativeBinomial r p
    end.
Proof.
  unfold solve_distribution, nb_params, Rleb, np_clip.
  now destruct (Rle_dec ((cv * mean) ^ 2) mean).
Qed.

(** With a positive mean the size draw of the code is the draw from
    the solved distribution: neither sampler refuses its arguments. *)
Lemma size_draw_run (mean cv : R) (s : rng) :
  0 < mean ->
  match nb_params mean cv with
  | None => x <- poisson_rvs mean ;; ret (Z.max 1 x)
  | Some (r_nb, p_nb) => x <- nbinom_rvs r_nb p_nb ;; ret (Z.max 1 x)
  end s
  = (x <- draw_size (solve_distribution mean cv) ;; ret (Z.max 1 x)) s.
Proof.
  intros Hm. rewrite nb_params_solve.
  destruct (nb_params mean cv) as [[r p] |] eqn:E; cbn [draw_size].
  - unfold nbinom_rvs. now rewrite (nbinom_args_valid mean cv r p Hm E).
  - unfold poisson_rvs.
    assert (H : Rleb 0 mean = true) by (apply Rleb_true_iff; lra).
    now rewrite H.
Qed.

Lemma day_body_run (t0 : date) (sku : string) (it : item) (d : date)
      (recs : table) (s : rng) :
  0 < meanSize it ->
  day_body t0 sku (dailyRate it) (peakYear it) (decayRate it)
           (meanSize it) (nb_params (meanSize it) (cvSize it)) d recs s
  = (q <- draw_quantity it (solve_distribution (meanSize it) (cvSize it))
                        t0 d ;;
     ret (recs ++ [mk_record d sku q])) s.
Proof.
  intros Hm. unfold day_body, lookup. rewrite dow_lookup, bind_ret_l.
  rewrite lam_today_effectiveRate.
  unfold draw_quantity, np_rand.
  rewrite bind_assoc. apply bind_ext. intros u s1.
  unfold Rltb. destruct (Rlt_dec u _); [| reflexivity].
  apply bind_cong. now apply size_draw_run.
Qed.

(** *** One SKU *)

Lemma sku_body_run (categories : list category) (days : list date)
      (t0 : date) (idx : nat) (c : category) (recs : table) (s : rng) :
  nth_error categories idx = Some c ->
  sku_body categories days t0 idx recs s
  = (rows <- item_series idx c t0 days ;; ret (recs ++ rows)) s.
Proof.
  intros Hc. unfold sku_body, item_series.
  rewrite (bind_ok _ _ _ _ _ (getitem_nth _ _ _ s Hc)).
  destruct (sku_params_run c s)
    as (lam & pk & dec & mean & cv & s1 & E1 & E2 & _ & _ & _ & Hm & _).
  rewrite (bind_ok _ _ _ _ _ E1), bind_assoc, (bind_ok _ _ _ _ _ E2).
  cbn [meanSize cvSize].
  apply (for_each_snoc
           (fun day =>
              q <- draw_quantity (mk_item lam pk dec mean cv)
                                 (solve_distribution mean cv) t0 day ;;
              ret (mk_record day (sku_name idx) q))).
  intros d acc s2.
  rewrite (day_body_run t0 (sku_name idx) (mk_item lam pk dec mean cv))
    by (simpl; lra).
  now rewrite bind_assoc.
Qed.

End Draws.

(** ** The whole table *)

Section Table.

Context {RS : RandomState} {RL : RandomStateLaws RS}.
Variable to_datetime : string -> option date.

Lemma bind_ext_ok {S A B} (m : M S A) (k1 k2 : A -> M S B) s :
  (forall a s', m s = Ok (a, s') -> k1 a s' = k2 a s') ->
  bind m k1 s = bind m k2 s.
Proof. intros H. unfold bind. destruct (m s) as [[a s'] | e]; auto. Qed.

Lemma pd_date_range_run (start_date end_date : string) (a b : date) s :
  to_datetime start_date = Some a -> to_datetime end_date = Some b ->
  pd_date_range to_datetime start_date end_date s
  = Ok (days_between a b, s).
Proof.
  intros Ha Hb. unfold pd_date_range, pd_to_datetime. now rewrite Ha, Hb.
Qed.

(** A seed of 32 bits is accepted, any other is refused at once. *)
Lemma np_random_seed_run (sd : Z) :
  (0 <= sd < 2 ^ 32)%Z -> np_random_seed sd = Ok (seed sd).
Proof.
  intros Hsd. unfold np_random_seed.
  destruct (Z.leb_spec 0 sd); [| lia].
  destruct (Z.ltb_spec sd (2 ^ 32)); [reflexivity | lia].
Qed.

Lemma np_random_seed_refused (sd : Z) :
  (sd < 0 \/ 2 ^ 32 <= sd)%Z -> np_random_seed sd = Raise SeedError.
Proof.
  intros Hsd. unfold np_random_seed.
  destruct (Z.leb_spec 0 sd); [| reflexivity].
  destruct (Z.ltb_spec sd (2 ^ 32)); [lia | reflexivity].
Qed.

Lemma generate_data_seeded (n_sku : Z) (start_date end_date : string)
      (sd : Z) :
  (0 <= sd < 2 ^ 32)%Z ->
  generate_data to_datetime n_sku start_date end_date sd
  = eval (generate_data_from to_datetime n_sku start_date end_date)
         (seed sd).
Proof.
  intros Hsd. unfold generate_data. now rewrite np_random_seed_run.
Qed.

(** On well-formed dates the code computes, from every state of the
    random stream, what the reference with the categories drawn ahead
    computes, and leaves the stream in the same state. *)
Lemma generate_data_from_categories_first (n_sku : Z)
      (start_date end_date : string) (a b : date) :
  (0 <= n_sku)%Z ->
  to_datetime start_date = Some a -> to_datetime end_date = Some b ->
  forall s,
    generate_data_from to_datetime n_sku start_date end_date s
    = categories_first (Z.to_nat n_sku) a b s.
Proof.
  intros Hn Ha Hb s0.
  unfold generate_data_from, categories_first, range.
  rewrite <- (Z2Nat.id n_sku Hn) at 1.
  apply eq_trans with
    (bind (for_all (fun _ => draw_category) (seq 0 (Z.to_nat n_sku)))
          (fun categories =>
             date_idx <- pd_date_range to_datetime start_date end_date ;;
             t0 <- pd_to_datetime to_datetime start_date ;;
             recs <- for_each (seq 0 (Z.to_nat n_sku))
                              (sku_body categories date_idx t0) [] ;;
             ret (sort_values recs)) s0).
  { apply bind_cong. apply np_choice_categories. }
  apply bind_ext_ok. intros cats s1 Hcats.
  apply for_all_length in Hcats. rewrite length_seq in Hcats.
  rewrite (bind_ok _ _ _ _ _ (pd_date_range_run _ _ a b s1 Ha Hb)).
  unfold pd_to_datetime at 1. rewrite Ha, bind_ret_l.
  assert (HB : forall idx, In idx (seq 0 (Z.to_nat n_sku)) ->
               forall acc s,
                 sku_body cats (days_between a b) a idx acc s
                 = bind (c <- getitem cats idx ;;
                         item_series idx c a (days_between a b))
                        (fun ys => ret (acc ++ ys)) s).
  { intros idx Hidx acc s2. apply in_seq in Hidx.
    destruct (nth_error cats idx) as [c |] eqn:Ec.
    - rewrite (sku_body_run _ _ _ _ c _ _ Ec).
      now rewrite bind_assoc, (bind_ok _ _ _ _ _ (getitem_nth _ _ _ s2 Ec)).
    - apply nth_error_None in Ec. lia. }
  rewrite (bind_cong _ _ _ _ (for_each_blocks _ _ _ HB [] s1)).
  rewrite bind_assoc.
  pose proof (for_all_indexed
                (fun idx c => item_series idx c a (days_between a b))
                [] cats s1) as HI.
  simpl in HI. rewrite Hcats in HI.
  rewrite (bind_cong _ _ _ _ HI).
  apply bind_ext. intros series s2. reflexivity.
Qed.

(** On a well-formed input the code computes what the reference with
    the categories drawn ahead computes. *)
Lemma generate_data_categories_first (n_sku : Z)
      (start_date end_date : string) (sd : Z) (a b : date) :
  (0 <= sd < 2 ^ 32)%Z -> (0 <= n_sku)%Z ->
  to_datetime start_date = Some a -> to_datetime end_date = Some b ->
  generate_data to_datetime n_sku start_date end_date sd
  = eval (categories_first (Z.to_nat n_sku) a b) (seed sd).
Proof.
  intros Hsd Hn Ha Hb. rewrite (generate_data_seeded _ _ _ _ Hsd).
  unfold eval.
  now rewrite (generate_data_from_categories_first _ _ _ a b Hn Ha Hb).
Qed.

(** *** What the reference produces *)

Lemma for_all_Forall2 {S A B} (P : A -> B -> Prop) (f : A -> M S B)
      (l : list A) :
  (forall x s, exists y s', f x s = Ok (y, s') /\ P x y) ->
  forall s, exists ys s', for_all f l s = Ok (ys, s') /\ Forall2 P l ys.
Proof.
  intros Hf. induction l as [| x l IH]; intros s; simpl.
  - exists [], s. split; [reflexivity | constructor].
  - destruct (Hf x s) as (y & s1 & E1 & Hy).
    destruct (IH s1) as (ys & s2 & E2 & Hys).
    exists (y :: ys), s2. split; [| now constructor].
    now rewrite (bind_ok _ _ _ _ _ E1), (bind_ok _ _ _ _ _ E2).
Qed.

Lemma draw_quantity_run (it : item) (dist : size_distribution)
      (t0 d : date) (s : rng) :
  exists q s', draw_quantity it dist t0 d s = Ok (q, s') /\ (0 <= q)%Z.
Proof.
  unfold draw_quantity. rewrite bind_draw.
  destruct (Rlt_dec _ _).
  - destruct dist; cbn [draw_size]; rewrite bind_draw;
      eexists; eexists; (split; [reflexivity | lia]).
  - eexists; eexists; split; [reflexivity | lia].
Qed.

(** The rows of one item: one per day, in the order of the days, each
    with the name of the item and a quantity that is not negative. *)
Lemma item_series_rows (idx : nat) (c : category) (t0 : date)
      (days : list date) (s : rng) :
  exists rows s',
    item_series idx c t0 days s = Ok (rows, s') /\
    map key rows = map (fun d => (sku_name idx, d)) days /\
    Forall (fun r => (0 <= demand_size r)%Z) rows.
Proof.
  unfold item_series.
  destruct (sku_params_run c s)
    as (lam & pk & dec & mean & cv & s1 & _ & E & _).
  rewrite (bind_ok _ _ _ _ _ E).
  set (it := mk_item lam pk dec mean cv).
  destruct (for_all_Forall2
              (fun d r => key r = (sku_name idx, d) /\
                          (0 <= demand_size r)%Z)
              (fun day =>
                 q <- draw_quantity it
                        (solve_distribution (meanSize it) (cvSize it))
                        t0 day ;;
                 ret (mk_record day (sku_name idx) q))
              days) with (s := s1) as (rows & s2 & E2 & HF).
  { intros d s'.
    destruct (draw_quantity_run it
                (solve_distribution (meanSize it) (cvSize it)) t0 d s')
      as (q & s'' & Eq & Hq).
    exists (mk_record d (sku_name idx) q), s''.
    rewrite (bind_ok _ _ _ _ _ Eq). now repeat split. }
  exists rows, s2. split; [exact E2 |].
  clear E2. induction HF as [| d r days rows [Hk Hq] _ [IH1 IH2]].
  - split; constructor.
  - split; [simpl; now rewrite Hk, IH1 | now constructor].
Qed.

Lemma series_rows (t0 : date) (days : list date)
      (ics : list (nat * category)) (s : rng) :
  exists series s',
    for_all (fun ic => item_series (fst ic) (snd ic) t0 days) ics s
    = Ok (series, s') /\
    map key (List.concat series)
    = flat_map (fun idx => map (fun d => (sku_name idx, d)) days)
               (map fst ics) /\
    Forall (fun r => (0 <= demand_size r)%Z) (List.concat series).
Proof.
  destruct (for_all_Forall2
              (fun (ic : nat * category) rows =>
                 map key rows = map (fun d => (sku_name (fst ic), d)) days /\
                 Forall (fun r => (0 <= demand_size r)%Z) rows)
              (fun ic => item_series (fst ic) (snd ic) t0 days) ics)
    with (s := s) as (series & s' & E & HF).
  { intros [idx c] s0. apply item_series_rows. }
  exists series, s'. split; [exact E |]. clear E.
  induction HF as [| ic rows ics series [Hk Hq] _ [IH1 IH2]]; simpl.
  - split; constructor.
  - rewrite map_app, Hk, IH1. split; [reflexivity |].
    apply Forall_app. now split.
Qed.

Lemma combine_seq_fst {A} (k : nat) (l : list A) :
  map fst (combine (seq k (List.length l)) l) = seq k (List.length l).
Proof.
  revert k. induction l as [| x l IH]; intros k; simpl; [reflexivity |].
  now rewrite IH.
Qed.

(** The reference never raises; its table is the sorted list of one row
    per item and day. *)
Lemma categories_first_rows (n : nat) (a b : date) (s : rng) :
  exists recs s',
    categories_first n a b s = Ok (sort_values recs, s') /\
    map key recs = all_keys n (days_between a b) /\
    Forall (fun r => (0 <= demand_size r)%Z) recs.
Proof.
  unfold categories_first.
  destruct (total_for_all (fun _ : nat => draw_category) (seq 0 n))
    with (s := s) as (cats & s1 & Ec).
  { intros _. unfold draw_category.
    apply total_bind; [apply total_draw | intros u; apply total_ret]. }
  rewrite (bind_ok _ _ _ _ _ Ec).
  apply for_all_length in Ec. rewrite length_seq in Ec.
  destruct (series_rows a (days_between a b) (combine (seq 0 n) cats) s1)
    as (series & s2 & E & Hk & Hq).
  rewrite (bind_ok _ _ _ _ _ E).
  exists (List.concat series), s2. split; [reflexivity |]. split; [| exact Hq].
  rewrite Hk. rewrite <- Ec, combine_seq_fst. reflexivity.
Qed.

End Table.

(** ** Names, keys and the sort *)

Lemma read_decimal_zeros (k : nat) (s : string) :
  Fmt.read_decimal (Fmt.zeros k ++ s) = Fmt.read_decimal s.
Proof.
  induction k as [| k IH]; [reflexivity |].
  unfold Fmt.read_decimal in *. simpl.
  destruct (NilEmpty.uint_of_string (Fmt.zeros k ++ s)) as [d |];
    destruct (NilEmpty.uint_of_string s) as [d' |]; simpl in *; congruence.
Qed.

Lemma read_zero_padded (w : nat) (n : N) :
  Fmt.read_decimal (Fmt.zero_padded w n) = Some n.
Proof.
  unfold Fmt.zero_padded. rewrite read_decimal_zeros.
  unfold Fmt.read_decimal, Fmt.decimal.
  rewrite NilEmpty.usu. simpl. now rewrite DecimalN.Unsigned.of_to.
Qed.

Lemma sku_name_inj (i j : nat) : sku_name i = sku_name j -> i = j.
Proof.
  unfold sku_name. cbn [append]. intros H.
  do 4 (apply (f_equal (fun s => match s with
                                 | String _ t => t
                                 | EmptyString => EmptyString
                                 end)) in H; cbn iota in H).
  apply (f_equal Fmt.read_decimal) in H.
  rewrite !read_zero_padded in H. injection H as H. lia.
Qed.

Lemma ascii_compare_lt_trans (a b c : ascii) :
  Ascii.compare a b = Lt -> Ascii.compare b c = Lt -> Ascii.compare a c = Lt.
Proof.
  unfold Ascii.compare. rewrite !N.compare_lt_iff. lia.
Qed.

Lemma string_compare_lt_trans (s1 s2 s3 : string) :
  String.compare s1 s2 = Lt -> String.compare s2 s3 = Lt ->
  String.compare s1 s3 = Lt.
Proof.
  revert s2 s3. induction s1 as [| a s1 IH]; intros [| b s2] [| c s3];
    simpl; try discriminate; auto.
  destruct (Ascii.compare a b) eqn:E1; try discriminate;
    destruct (Ascii.compare b c) eqn:E2; try discriminate; intros H1 H2.
  - pose proof (Ascii.compare_eq_iff _ _ E1).
    pose proof (Ascii.compare_eq_iff _ _ E2). subst.
    rewrite E1. eauto.
  - apply Ascii.compare_eq_iff in E1. subst. now rewrite E2.
  - apply Ascii.compare_eq_iff in E2. subst. now rewrite E1.
  - now rewrite (ascii_compare_lt_trans a b c).
Qed.

Lemma string_compare_refl (s : string) : String.compare s s = Eq.
Proof.
  induction s as [| a s IH]; simpl; [reflexivity |].
  unfold Ascii.compare. now rewrite N.compare_refl.
Qed.

Lemma key_leb_iff (x y : record) : key_leb x y = true <-> key_le x y.
Proof.
  unfold key_leb, key_le.
  destruct (String.compare (material x) (material y)) eqn:E.
  - apply String.compare_eq_iff in E. rewrite Z.leb_le. split.
    + auto.
    + intros [H | [_ H]]; [discriminate | exact H].
  - split; auto.
  - split; [discriminate |]. intros [H | [H _]]; [discriminate |].
    rewrite H, string_compare_refl in E. discriminate.
Qed.

Lemma key_le_trans (x y z : record) : key_le x y -> key_le y z -> key_le x z.
Proof.
  unfold key_le. intros [H1 | [E1 L1]] [H2 | [E2 L2]].
  - left. eapply string_compare_lt_trans; eauto.
  - left. now rewrite <- E2.
  - left. now rewrite E1.
  - right. split; [congruence | lia].
Qed.

Lemma key_le_total (x y : record) : key_le x y \/ key_le y x.
Proof.
  unfold key_le.
  destruct (String.compare (material x) (material y)) eqn:E.
  - apply String.compare_eq_iff in E.
    destruct (Z.le_ge_cases (demand_date x) (demand_date y)); auto.
  - auto.
  - right. left. rewrite String.compare_antisym, E. reflexivity.
Qed.

Lemma insert_row_perm (x : record) (l : table) :
  Permutation (insert_row x l) (x :: l).
Proof.
  induction l as [| y l IH]; simpl; [reflexivity |].
  destruct (key_leb x y); [reflexivity |].
  rewrite IH. apply perm_swap.
Qed.

Lemma sort_values_perm (l : table) : Permutation (sort_values l) l.
Proof.
  unfold sort_values. induction l as [| x l IH]; simpl; [reflexivity |].
  now rewrite insert_row_perm, IH.
Qed.

Lemma insert_row_sorted (x : record) (l : table) :
  StronglySorted key_le l -> StronglySorted key_le (insert_row x l).
Proof.
  induction 1 as [| y l Hs IH Hy]; simpl; [repeat constructor |].
  destruct (key_leb x y) eqn:E.
  - apply key_leb_iff in E. constructor; [now constructor |].
    constructor; [exact E |].
    eapply Forall_impl; [| exact Hy]. intros z. now apply key_le_trans.
  - assert (Hyx : key_le y x).
    { destruct (key_le_total x y) as [H | H]; [| exact H].
      apply key_leb_iff in H. congruence. }
    constructor; [exact IH |].
    apply (Permutation_Forall (Permutation_sym (insert_row_perm x l))).
    now constructor.
Qed.

Lemma sort_values_sorted (l : table) : StronglySorted key_le (sort_values l).
Proof.
  unfold sort_values. induction l as [| x l IH]; simpl; [constructor |].
  now apply insert_row_sorted.
Qed.

Lemma days_between_In (a b d : date) :
  In d (days_between a b) <-> (a <= d <= b)%Z.
Proof.
  unfold days_between. rewrite in_map_iff. split.
  - intros (i & <- & Hi). apply in_seq in Hi. lia.
  - intros H. exists (Z.to_nat (d - a)). split; [lia |].
    apply in_seq. lia.
Qed.

Lemma days_between_NoDup (a b : date) : NoDup (days_between a b).
Proof.
  unfold days_between. apply NoDup_map_NoDup_ForallPairs.
  - intros i j _ _ H. lia.
  - apply seq_NoDup.
Qed.

Lemma days_between_length (a b : date) :
  (a <= b)%Z ->
  Z.of_nat (List.length (days_between a b)) = numDaysInclusive a b.
Proof.
  intros H. unfold days_between, numDaysInclusive.
  rewrite length_map, length_seq. lia.
Qed.

Lemma all_keys_In (n : nat) (days : list date) (name : string) (d : date) :
  In (name, d) (all_keys n days) <->
  exists idx, (idx < n)%nat /\ name = sku_name idx /\ In d days.
Proof.
  unfold all_keys. rewrite in_flat_map. split.
  - intros (idx & Hi & H). apply in_seq in Hi. apply in_map_iff in H.
    destruct H as (d' & E & Hd). injection E as <- <-.
    exists idx. repeat split; [lia | exact Hd].
  - intros (idx & Hi & -> & Hd). exists idx. split; [apply in_seq; lia |].
    apply in_map_iff. now exists d.
Qed.

Lemma all_keys_NoDup (n : nat) (days : list date) :
  NoDup days -> NoDup (all_keys n days).
Proof.
  intros Hd. unfold all_keys.
  assert (H : forall l, NoDup l ->
               NoDup (flat_map
                        (fun idx => map (fun d => (sku_name idx, d)) days) l)).
  { induction 1 as [| x l Hx Hl IH]; simpl; [constructor |].
    apply NoDup_app.
    - apply NoDup_map_NoDup_ForallPairs; [| exact Hd].
      intros d1 d2 _ _ E. congruence.
    - exact IH.
    - intros [name d] H1 H2. apply in_map_iff in H1.
      destruct H1 as (d' & E & _). apply in_flat_map in H2.
      destruct H2 as (y & Hy & H2). apply in_map_iff in H2.
      destruct H2 as (d'' & E' & _).
      assert (y = x) by (apply sku_name_inj; congruence).
      subst. contradiction. }
  apply H, seq_NoDup.
Qed.

Lemma all_keys_length (n : nat) (days : list date) :
  List.length (all_keys n days) = (n * List.length days)%nat.
Proof.
  unfold all_keys. generalize 0%nat.
  induction n as [| n IH]; intros k; simpl; [reflexivity |].
  now rewrite length_app, length_map, IH.
Qed.

(** ** The claims about the generator *)

Section Claims.

Context {RS : RandomState} {RL : RandomStateLaws RS}.
Variable to_datetime : string -> option date.

(** On a well-formed input the generator returns the sorted list of
    one row per item and day, no quantity negative. *)
Lemma generate_data_table (n_sku : Z) (start_date end_date : string)
      (sd : Z) (a b : date) :
  (0 <= sd < 2 ^ 32)%Z -> (0 <= n_sku)%Z ->
  to_datetime start_date = Some a -> to_datetime end_date = Some b ->
  exists recs,
    generate_data to_datetime n_sku start_date end_date sd
    = Ok (sort_values recs) /\
    map key recs = all_keys (Z.to_nat n_sku) (days_between a b) /\
    Forall (fun r => (0 <= demand_size r)%Z) recs.
Proof.
  intros Hsd Hn Ha Hb.
  rewrite (generate_data_categories_first _ _ _ _ _ a b Hsd Hn Ha Hb).
  destruct (categories_first_rows (Z.to_nat n_sku) a b (seed sd))
    as (recs & s' & E & Hk & Hq).
  exists recs. unfold eval. now rewrite E.
Qed.

Lemma sorted_keys (recs : table) :
  Permutation (map key (sort_values recs)) (map key recs).
Proof. apply Permutation_map, sort_values_perm. Qed.

(** C2: on a well-formed input the table has numItems times
    numDaysInclusive(start, end) rows, exactly one for each pair of an
    item and a day of the window, whatever the quantity, and no row
    besides them. *)
Theorem one_record_per_item_and_day (n_sku : Z)
        (start_date end_date : string) (sd : Z) (a b : date) :
  (0 <= sd < 2 ^ 32)%Z -> (0 <= n_sku)%Z ->
  to_datetime start_date = Some a -> to_datetime end_date = Some b ->
  (a <= b)%Z ->
  exists df,
    generate_data to_datetime n_sku start_date end_date sd = Ok df /\
    Z.of_nat (List.length df) = (n_sku * numDaysInclusive a b)%Z /\
    (forall idx d,
        (idx < Z.to_nat n_sku)%nat -> (a <= d <= b)%Z ->
        count_occ key_eq_dec (map key df) (sku_name idx, d) = 1%nat) /\
    (forall r, In r df ->
               exists idx, (idx < Z.to_nat n_sku)%nat /\
                           material r = sku_name idx /\
                           (a <= demand_date r <= b)%Z).
Proof.
  intros Hsd Hn Ha Hb Hab.
  destruct (generate_data_table n_sku start_date end_date sd a b
                                Hsd Hn Ha Hb)
    as (recs & E & Hk & _).
  exists (sort_values recs). split; [exact E |].
  pose proof (sorted_keys recs) as HP. rewrite Hk in HP.
  split; [| split].
  - rewrite <- (length_map key), (Permutation_length HP), all_keys_length.
    rewrite Nat2Z.inj_mul, days_between_length, Z2Nat.id by lia.
    reflexivity.
  - intros idx d Hidx Hd.
    rewrite (Permutation_count_occ key_eq_dec) in HP. rewrite HP.
    apply NoDup_count_occ'.
    + apply all_keys_NoDup, days_between_NoDup.
    + apply all_keys_In. exists idx. repeat split; [exact Hidx |].
      now apply days_between_In.
  - intros r Hr. apply (in_map key) in Hr.
    apply (Permutation_in _ HP), all_keys_In in Hr.
    destruct Hr as (idx & Hidx & Hname & Hd).
    exists idx. split; [exact Hidx |]. split; [exact Hname |].
    now apply days_between_In.
Qed.

(** *** One day of one item *)

(** What the inner loop body does on a day: it never raises when the
    mean size is positive, it appends exactly one row, and the quantity
    is decided by comparing the uniform draw with the rate of the day. *)
Lemma day_body_outcome (t0 : date) (sku : string) (lam_daily : R)
      (peak_year : Z) (decay mean_size cv_size : R) (d : date)
      (recs : table) (s : rng) :
  0 < mean_size ->
  let u := fst (random_sample s) in
  let rate := lam_today lam_daily peak_year decay t0 d
                        (dowFactor (day_name_of d)) in
  exists q s',
    day_body t0 sku lam_daily peak_year decay mean_size
             (nb_params mean_size cv_size) d recs s
    = Ok (recs ++ [mk_record d sku q], s') /\
    (0 <= q)%Z /\ (q = 0%Z <-> rate <= u) /\ (u < rate -> (1 <= q)%Z).
Proof.
  intros Hm u rate. unfold day_body, lookup.
  rewrite dow_lookup, bind_ret_l. fold rate.
  unfold np_rand. rewrite bind_draw. fold u.
  destruct (Rltb u rate) eqn:E.
  - apply Rltb_true_iff in E.
    rewrite (bind_cong _ _ _ _ (size_draw_run mean_size cv_size _ Hm)).
    rewrite bind_assoc.
    destruct (solve_distribution mean_size cv_size); cbn [draw_size];
      rewrite bind_draw, !bind_ret_l;
      eexists; eexists; (split; [reflexivity |]);
      repeat split; intros; try lia; lra.
  - apply Rltb_false_iff in E. rewrite bind_ret_l.
    eexists; eexists; (split; [reflexivity |]).
    repeat split; intros; try lia; lra.
Qed.

(** C7: on a day whose effective rate is 1 or more the occurrence is
    certain: the uniform draw is below 1, the rate is compared as it is,
    without being clamped to [0, 1], and the quantity is at least 1. *)
Theorem occurrence_certain_when_rate_saturates
        (t0 : date) (sku : string) (lam_daily : R) (peak_year : Z)
        (decay mean_size cv_size : R) (d : date) (recs : table) (s : rng) :
  0 < mean_size ->
  1 <= lam_today lam_daily peak_year decay t0 d
                 (dowFactor (day_name_of d)) ->
  0 <= fst (random_sample s) < 1 /\
  fst (random_sample s)
  < lam_today lam_daily peak_year decay t0 d (dowFactor (day_name_of d)) /\
  exists q s',
    day_body t0 sku lam_daily peak_year decay mean_size
             (nb_params mean_size cv_size) d recs s
    = Ok (recs ++ [mk_record d sku q], s') /\
    (1 <= q)%Z.
Proof.
  intros Hm Hrate. pose proof (random_sample_range s) as Hu.
  split; [exact Hu |]. split; [lra |].
  destruct (day_body_outcome t0 sku lam_daily peak_year decay mean_size
                             cv_size d recs s Hm)
    as (q & s' & E & _ & _ & Hq).
  exists q, s'. split; [exact E |]. apply Hq. lra.
Qed.

(** C4: the dictionary lookup of the weekday never misses and gives the
    factor 1.0 from Monday to Friday, 0.6 on Saturday and 0.4 on Sunday
    (Monday is weekday 0); the seasonal factor is 1.25 in July and December
    and 1.0 otherwise; the rate that the loop body compares with the
    uniform draw is
    dailyRate * max(1 - decayRate * max(year - startYear - peakYear, 0), 0.1)
    * dowFactor * seasonalFactor; the ageing factor is never below 0.1, so
    the aged rate is at least a tenth of the daily rate and not zero. *)
Theorem occurrence_probability_formula
        (lam_daily : R) (peak_year : Z) (decay : R) (t0 d : date) :
  0 < lam_daily ->
  let dow := dowFactor (day_name_of d) in
  let years := Z.max (year d - year t0 - peak_year) 0 in
  let rate := lam_daily * Rmax (1 - decay * IZR years) 0.1 * dow
              * seasonalFactor (month d) in
  dict_get dow_dict (weekday d) = Some dow /\
  day_name_of d =
    nth (Z.to_nat (weekday d))
        [Monday; Tuesday; Wednesday; Thursday; Friday; Saturday; Sunday]
        Monday /\
  (dowFactor Monday = 1.0 /\ dowFactor Tuesday = 1.0 /\
   dowFactor Wednesday = 1.0 /\ dowFactor Thursday = 1.0 /\
   dowFactor Friday = 1.0 /\ dowFactor Saturday = 0.6 /\
   dowFactor Sunday = 0.4) /\
  ((month d = 7 \/ month d = 12)%Z -> seasonalFactor (month d) = 1.25) /\
  ((month d <> 7 /\ month d <> 12)%Z -> seasonalFactor (month d) = 1.0) /\
  lam_today lam_daily peak_year decay t0 d dow = rate /\
  (forall sku mean_size nb recs s,
      day_body t0 sku lam_daily peak_year decay mean_size nb d recs s
      = (u <- np_rand ;;
         qty <- (if Rltb u rate
                 then match nb with
                      | None => x <- poisson_rvs mean_size ;;
                                ret (Z.max 1 x)
                      | Some (r_nb, p_nb) =>
                          x <- nbinom_rvs r_nb p_nb ;; ret (Z.max 1 x)
                      end
                 else ret 0%Z) ;;
         ret (recs ++ [mk_record d sku qty])) s) /\
  0.1 <= Rmax (1 - decay * IZR years) 0.1 /\
  0.1 * lam_daily <= lam_adj lam_daily peak_year decay t0 d /\
  0 < lam_adj lam_daily peak_year decay t0 d.
Proof.
  intros Hlam dow years rate.
  assert (Hadj : lam_adj lam_daily peak_year decay t0 d
                 = lam_daily * Rmax (1 - decay * IZR years) 0.1).
  { unfold lam_adj. now rewrite py_max_Rmax. }
  assert (Hrate : lam_today lam_daily peak_year decay t0 d dow = rate).
  { unfold dow. now rewrite lam_today_effectiveRate. }
  pose proof (ageing_floor decay (year d - year t0 - peak_year)) as Hfl.
  fold years in Hfl.
  split; [apply dow_lookup |]. split; [reflexivity |].
  split; [repeat split; reflexivity |].
  split; [apply (seasonalFactor_cases (month d)) |].
  split; [apply (seasonalFactor_cases (month d)) |].
  split; [exact Hrate |].
  split.
  { intros sku mean_size nb recs s. unfold day_body, lookup.
    rewrite dow_lookup, bind_ret_l. fold dow. now rewrite Hrate. }
  split; [exact Hfl |]. rewrite Hadj. split; nra.
Qed.

(** C10: an item of category slow or lumpy has dailyRate = 10^u with
    u <= -1, so dailyRate <= 0.1; the ageing factor is at most 1, the
    weekday factor at most 1.0 and the seasonal factor at most 1.25, so the
    effective rate is at most 0.125 on every day, below 1; a rate of 1 or
    more is thus possible for smooth and erratic items only. *)
Theorem sparse_items_never_saturate (cat : category) (s : rng) :
  cat = slow \/ cat = lumpy ->
  exists lam pk dec mean_size cv_size s',
    sku_params cat s = Ok ((lam, pk, dec, mean_size, cv_size), s') /\
    (exists u, u <= -1 /\ lam = Rpower 10 u) /\
    lam <= 0.1 /\
    (forall t0 d,
        Rmax (1 - dec * IZR (Z.max (year d - year t0 - pk) 0)) 0.1 <= 1 /\
        dowFactor (day_name_of d) <= 1.0 /\
        seasonalFactor (month d) <= 1.25 /\
        lam_today lam pk dec t0 d (dowFactor (day_name_of d)) <= 0.125 /\
        lam_today lam pk dec t0 d (dowFactor (day_name_of d)) < 1) /\
    (forall c s0 lam0 pk0 dec0 m0 cv0 s0' t0 d,
        sku_params c s0 = Ok ((lam0, pk0, dec0, m0, cv0), s0') ->
        1 <= lam_today lam0 pk0 dec0 t0 d (dowFactor (day_name_of d)) ->
        c = smooth \/ c = erratic).
Proof.
  intros Hcat.
  assert (Hbound : forall c s0 lam0 pk0 dec0 m0 cv0 s0' t0 d,
             sku_params c s0 = Ok ((lam0, pk0, dec0, m0, cv0), s0') ->
             c = slow \/ c = lumpy ->
             lam_today lam0 pk0 dec0 t0 d (dowFactor (day_name_of d))
             <= 0.125).
  { intros c s0 lam0 pk0 dec0 m0 cv0 s0' t0 d E Hc.
    destruct (sku_params_run c s0)
      as (l & k & e & m & v & s1 & E1 & _ & Hl & _ & He & _ & _ & _
          & Hs & _).
    rewrite E in E1. injection E1 as <- <- <- <- <- <-.
    rewrite lam_today_effectiveRate.
    eapply Rle_trans; [apply effectiveRate_upper; lra |].
    specialize (Hs Hc). lra. }
  destruct (sku_params_run cat s)
    as (lam & pk & dec & ms & cvs & s' & E1 & _ & Hl & _ & He & _ & _ & _
        & Hs & Hpow).
  exists lam, pk, dec, ms, cvs, s'. split; [exact E1 |]. split.
  { eexists. split; [| exact (Hpow Hcat)].
    pose proof (random_sample_range s). lra. }
  split; [exact (Hs Hcat) |]. split.
  - intros t0 d.
    pose proof (ageing_range dec (year d - year t0 - pk) ltac:(lra)).
    pose proof (dowFactor_range (day_name_of d)).
    pose proof (seasonalFactor_range (month d)).
    pose proof (Hbound _ _ _ _ _ _ _ _ t0 d E1 Hcat).
    repeat split; lra.
  - intros c s0 lam0 pk0 dec0 m0 cv0 s0' t0 d E Hrate.
    destruct c; auto;
      pose proof (Hbound _ _ _ _ _ _ _ _ t0 d E ltac:(auto)); lra.
Qed.

(** *** The order of the draws *)

(** With at most one item the two reference orders are the same. *)
Lemma item_major_one (n : nat) (a b : date) (s : rng) :
  (n <= 1)%nat -> item_major n a b s = categories_first n a b s.
Proof.
  intros Hn. unfold item_major, categories_first.
  destruct n as [| [| n]]; [reflexivity | | lia].
  cbn [seq for_all combine].
  rewrite !bind_assoc. apply bind_ext. intros c s1.
  cbv [bind ret for_all fst snd].
  now destruct (item_series 0 c a (days_between a b) s1) as [[x s2] | e].
Qed.

(** *** Configurations that the specification calls invalid *)

Lemma np_choice_total (n : nat) :
  total (np_choice [smooth; erratic; slow; lumpy] (Z.of_nat n)
                   [0.20; 0.20; 0.30; 0.30]%float).
Proof.
  intros s. rewrite (np_choice_categories n 0 s).
  apply total_for_all. intros _. unfold draw_category.
  apply total_bind; [apply total_draw | intros u; apply total_ret].
Qed.

Lemma all_keys_no_days (n : nat) : all_keys n [] = [].
Proof.
  unfold all_keys. generalize 0%nat.
  induction n as [| n IH]; intros k; simpl; auto.
Qed.

Lemma days_between_empty (a b : date) : (b < a)%Z -> days_between a b = [].
Proof.
  intros H. unfold days_between.
  replace (Z.to_nat (b - a + 1)) with 0%nat by lia. reflexivity.
Qed.

(** An empty window or an empty list of items gives an empty table,
    without an error. *)
Lemma generate_data_empty (n_sku : Z) (start_date end_date : string)
      (sd : Z) (a b : date) :
  (0 <= sd < 2 ^ 32)%Z -> (0 <= n_sku)%Z ->
  to_datetime start_date = Some a -> to_datetime end_date = Some b ->
  (b < a)%Z \/ n_sku = 0%Z ->
  generate_data to_datetime n_sku start_date end_date sd = Ok [].
Proof.
  intros Hsd Hn Ha Hb Hempty.
  destruct (generate_data_table n_sku start_date end_date sd a b
                                Hsd Hn Ha Hb)
    as (recs & E & Hk & _).
  assert (Hnil : recs = []).
  { apply (map_eq_nil key). rewrite Hk.
    destruct Hempty as [Hw | ->].
    - rewrite days_between_empty by exact Hw. apply all_keys_no_days.
    - reflexivity. }
  now rewrite E, Hnil.
Qed.

Lemma generate_data_negative (n_sku : Z) (start_date end_date : string)
      (sd : Z) :
  (0 <= sd < 2 ^ 32)%Z -> (n_sku < 0)%Z ->
  generate_data to_datetime n_sku start_date end_date sd
  = Raise NegativeDimensions.
Proof.
  intros Hsd Hn. rewrite (generate_data_seeded _ _ _ _ _ Hsd).
  unfold eval, generate_data_from, np_choice.
  apply Z.ltb_lt in Hn. now rewrite Hn.
Qed.

Lemma generate_data_unparseable (n_sku : Z) (start_date end_date : string)
      (sd : Z) :
  (0 <= sd < 2 ^ 32)%Z -> (0 <= n_sku)%Z ->
  to_datetime start_date = None \/ to_datetime end_date = None ->
  generate_data to_datetime n_sku start_date end_date sd
  = Raise DateParseError.
Proof.
  intros Hsd Hn Hbad. rewrite (generate_data_seeded _ _ _ _ _ Hsd).
  unfold eval, generate_data_from.
  rewrite <- (Z2Nat.id n_sku Hn) at 1.
  destruct (np_choice_total (Z.to_nat n_sku) (seed sd)) as (cats & s1 & E).
  rewrite (bind_ok _ _ _ _ _ E).
  unfold pd_date_range, pd_to_datetime.
  destruct (to_datetime start_date) as [a |]; [| reflexivity].
  destruct (to_datetime end_date) as [b |]; [| reflexivity].
  destruct Hbad; discriminate.
Qed.

(** C6 as amended: with a seed that NumPy accepts, a negative item count
    or a date that cannot be read makes the program fail before any row is
    generated, and nothing is written; an item count of zero or an end
    date before the start date is not refused: the generator returns an
    empty table and the program writes a file that holds the header line
    only. *)
Theorem invalid_configurations (a : args) :
  (0 <= arg_seed a < 2 ^ 32)%Z ->
  ((arg_sku a < 0)%Z ->
   generate_data to_datetime (arg_sku a) (arg_start a) (arg_end a)
                 (arg_seed a) = Raise NegativeDimensions /\
   main to_datetime a = Raise NegativeDimensions) /\
  ((0 <= arg_sku a)%Z ->
   to_datetime (arg_start a) = None \/ to_datetime (arg_end a) = None ->
   generate_data to_datetime (arg_sku a) (arg_start a) (arg_end a)
                 (arg_seed a) = Raise DateParseError /\
   main to_datetime a = Raise DateParseError) /\
  (forall t0 t1,
      (0 <= arg_sku a)%Z ->
      to_datetime (arg_start a) = Some t0 ->
      to_datetime (arg_end a) = Some t1 ->
      (t1 < t0)%Z \/ arg_sku a = 0%Z ->
      generate_data to_datetime (arg_sku a) (arg_start a) (arg_end a)
                    (arg_seed a) = Ok [] /\
      main to_datetime a = Ok [csv_header]).
Proof.
  intros Hsd. split; [| split].
  - intros Hn. unfold main.
    now rewrite generate_data_negative.
  - intros Hn Hbad. unfold main.
    now rewrite generate_data_unparseable.
  - intros t0 t1 Hn H0 H1 He. unfold main.
    now rewrite (generate_data_empty _ _ _ _ t0 t1 Hsd Hn H0 H1 He).
Qed.

End Claims.

(** ** Runs in the concrete setting *)

Lemma unit_fraction_range (k : nat) : 0 <= Fixture.unit_fraction k < 1.
Proof.
  unfold Fixture.unit_fraction.
  pose proof (Z.mod_pos_bound (Z.of_nat k * 37) 100 ltac:(lia)) as [H0 H1].
  apply IZR_le in H0. apply IZR_lt in H1.
  split.
  - apply Rmult_le_reg_r with 100; [lra |].
    unfold Rdiv. rewrite Rmult_assoc, Rinv_l by lra. lra.
  - apply Rmult_lt_reg_r with 100; [lra |].
    unfold Rdiv. rewrite Rmult_assoc, Rinv_l by lra. lra.
Qed.

Lemma counter_stream_laws : RandomStateLaws Fixture.counter_stream.
Proof.
  split.
  - intros s. apply unit_fraction_range.
  - intros lo hi s H. cbn [randint Fixture.counter_stream fst].
    pose proof (Z.mod_pos_bound (Z.of_nat s) (hi - lo) ltac:(lia)). lia.
Qed.

(** The calendar on the days used below. *)
Example calendar_2023 :
  Fixture.iso_date "2023-01-01" = Some Fixture.jan_1 /\
  Fixture.iso_date "2023-01-02" = Some Fixture.jan_2 /\
  Fixture.iso_date "2023-01-07" = Some Fixture.jan_7 /\
  Fixture.iso_date "2023-07-03" = Some Fixture.jul_3 /\
  day_name_of Fixture.jan_1 = Sunday /\
  day_name_of Fixture.jan_2 = Monday /\
  day_name_of Fixture.jan_7 = Saturday /\
  day_name_of Fixture.jul_3 = Monday /\
  year Fixture.jan_1 = 2023%Z /\ year Fixture.jul_3 = 2023%Z /\
  month Fixture.jan_7 = 1%Z /\ month Fixture.jul_3 = 7%Z.
Proof. repeat split; reflexivity. Qed.

(** A row of the file. *)
Example csv_row_format :
  csv_row (mk_record Fixture.jan_1 (sku_name 0) 3)
  = "2023-01-01,SKU-0001,3"%string.
Proof. reflexivity. Qed.

Lemma nb_params_correct_witness :
  0 < 4 /\ 0 <= 1 /\
  (nb_params 4 1 = None <-> (1 * 4) ^ 2 <= 4) /\
  nb_params 4 1
  = Some (4 ^ 2 / ((1 * 4) ^ 2 - 4),
          np_clip (4 ^ 2 / ((1 * 4) ^ 2 - 4) / (4 ^ 2 / ((1 * 4) ^ 2 - 4) + 4))
                  1e-6 (1 - 1e-6)).
Proof.
  assert (H4 : 0 < 4) by lra. assert (H1 : 0 <= 1) by lra.
  destruct (nb_params_correct 4 1 H4 H1) as (Hnone & _ & Hsome).
  split; [exact H4 |]. split; [exact H1 |]. split; [exact Hnone |].
  apply Hsome. lra.
Defined.

Lemma one_record_per_item_and_day_witness :
  (0 <= 1 < 2 ^ 32)%Z /\ (0 <= 2)%Z /\
  Fixture.iso_date "2023-01-01" = Some Fixture.jan_1 /\
  Fixture.iso_date "2023-01-02" = Some Fixture.jan_2 /\
  (Fixture.jan_1 <= Fixture.jan_2)%Z /\
  exists df,
    @generate_data Fixture.counter_stream Fixture.iso_date
                   2 "2023-01-01" "2023-01-02" 1 = Ok df /\
    Z.of_nat (List.length df) = 4%Z /\
    count_occ key_eq_dec (map key df) (sku_name 1, Fixture.jan_2) = 1%nat.
Proof.
  assert (Hsd : (0 <= 1 < 2 ^ 32)%Z) by (split; [discriminate | reflexivity]).
  assert (Hn : (0 <= 2)%Z) by discriminate.
  assert (Ha : Fixture.iso_date "2023-01-01" = Some Fixture.jan_1)
    by reflexivity.
  assert (Hb : Fixture.iso_date "2023-01-02" = Some Fixture.jan_2)
    by reflexivity.
  assert (Hab : (Fixture.jan_1 <= Fixture.jan_2)%Z) by discriminate.
  repeat (split; [assumption |]).
  destruct (@one_record_per_item_and_day
              Fixture.counter_stream counter_stream_laws Fixture.iso_date
              2 "2023-01-01" "2023-01-02" 1 _ _ Hsd Hn Ha Hb Hab)
    as (df & E & Hlen & Hcount & _).
  exists df. split; [exact E |]. split; [exact Hlen |].
  apply Hcount; [apply Nat.lt_succ_diag_r | split; discriminate].
Defined.

(** ** The generator run on the counter stream *)

Lemma unit_fraction_value (k : nat) (z : Z) :
  ((Z.of_nat k * 37) mod 100)%Z = z -> Fixture.unit_fraction k = IZR z / 100.
Proof. intros <-. reflexivity. Qed.

(** On 2 January 2023, a Monday of the first year of the window, the
    effective rate is the daily rate. *)
Lemma effectiveRate_jan_2 (r : R) (pk : Z) (d : R) :
  (1 <= pk)%Z ->
  effectiveRate r pk d (year Fixture.jan_2) (year Fixture.jan_2)
                (day_name_of Fixture.jan_2) (month Fixture.jan_2) = r.
Proof.
  intros Hpk. unfold effectiveRate.
  replace (Z.max (year Fixture.jan_2 - year Fixture.jan_2 - pk) 0)
    with 0%Z by lia.
  replace (day_name_of Fixture.jan_2) with Monday by reflexivity.
  replace (month Fixture.jan_2) with 1%Z by reflexivity.
  replace (Rmax (1 - d * 0) 0.1) with 1
    by (unfold Rmax; destruct (Rle_dec _ _); lra).
  change (seasonalFactor 1) with 1.0. change (dowFactor Monday) with 1.0.
  lra.
Qed.

Lemma randint_counter (k : nat) :
  (1 <= 1 + Z.of_nat k mod (4 - 1))%Z.
Proof. pose proof (Z.mod_pos_bound (Z.of_nat k) (4 - 1)). lia. Qed.

(** A smooth or erratic item whose gate draw is below 0.7 has an
    occurrence on that day: seven positions of the stream are eaten. *)
Lemma item_series_dense (idx : nat) (c : category) (k : nat) :
  c = smooth \/ c = erratic ->
  Fixture.unit_fraction (k + 5) < 0.7 ->
  item_series (RS := Fixture.counter_stream) idx c Fixture.jan_2
              [Fixture.jan_2] k
  = Ok ([mk_record Fixture.jan_2 (sku_name idx)
                   (Z.max 1 (Z.of_nat (k + 6) mod 5))], (k + 7)%nat).
Proof.
  intros Hc Hu.
  replace (k + 5)%nat with (S (S (S (S (S k))))) in Hu by lia.
  replace (k + 6)%nat with (S (S (S (S (S (S k)))))) by lia.
  replace (k + 7)%nat with (S (S (S (S (S (S (S k))))))) by lia.
  pose proof (unit_fraction_range k) as H0.
  pose proof (randint_counter (S k)) as Hpk.
  unfold item_series.
  destruct Hc as [-> | ->];
    cbv [draw_item uniform bind draw ret random_sample randint for_all
         draw_quantity Fixture.counter_stream meanSize cvSize dailyRate
         peakYear decayRate];
    rewrite (effectiveRate_jan_2 _ _ _ Hpk);
    (destruct (Rlt_dec _ _) as [_ | Hn]; [| exfalso; apply Hn; lra]);
    destruct (solve_distribution _ _); reflexivity.
Qed.

(** A slow or lumpy item whose gate draw is 0.125 or more has no
    occurrence on that day: six positions of the stream are eaten. *)
Lemma item_series_sparse (idx : nat) (c : category) (k : nat) :
  c = slow \/ c = lumpy ->
  0.125 <= Fixture.unit_fraction (k + 5) ->
  item_series (RS := Fixture.counter_stream) idx c Fixture.jan_2
              [Fixture.jan_2] k
  = Ok ([mk_record Fixture.jan_2 (sku_name idx) 0], (k + 6)%nat).
Proof.
  intros Hc Hu.
  replace (k + 5)%nat with (S (S (S (S (S k))))) in Hu by lia.
  replace (k + 6)%nat with (S (S (S (S (S (S k)))))) by lia.
  pose proof (unit_fraction_range k) as H0.
  pose proof (randint_counter (S k)) as Hpk.
  assert (Hr : Rpower 10 (-3.5 + (-1.0 - -3.5) * Fixture.unit_fraction k)
               <= 0.1) by (apply pow10_le_tenth; lra).
  unfold item_series.
  destruct Hc as [-> | ->];
    cbv [draw_item uniform bind draw ret random_sample randint for_all
         draw_quantity Fixture.counter_stream meanSize cvSize dailyRate
         peakYear decayRate];
    rewrite (effectiveRate_jan_2 _ _ _ Hpk);
    (destruct (Rlt_dec _ _) as [Hlt | _]; [exfalso; lra |]);
    reflexivity.
Qed.

Lemma draw_category_counter (k : nat) (z : Z) :
  ((Z.of_nat k * 37) mod 100)%Z = z ->
  draw_category (RS := Fixture.counter_stream) k
  = Ok (if (z <=? 20)%Z then smooth
        else if (z <=? 40)%Z then erratic
        else if (z <? 70)%Z then slow else lumpy, S k).
Proof.
  intros Hz. unfold draw_category.
  cbv [bind draw ret random_sample Fixture.counter_stream].
  rewrite (unit_fraction_value k z Hz).
  destruct category_thresholds as (T1 & T2 & T3 & _).
  rewrite T1, T2, T3.
  repeat f_equal.
  destruct (Z.leb_spec z 20) as [H | H].
  { apply IZR_le in H.
    destruct (Rlt_dec _ _); [reflexivity | exfalso; lra]. }
  assert (H' : (21 <= z)%Z) by lia. apply IZR_le in H'.
  destruct (Rlt_dec _ _); [exfalso; lra |].
  destruct (Z.leb_spec z 40) as [H1 | H1].
  { apply IZR_le in H1.
    destruct (Rlt_dec _ _); [reflexivity | exfalso; lra]. }
  assert (H1' : (41 <= z)%Z) by lia. apply IZR_le in H1'.
  destruct (Rlt_dec _ _); [exfalso; lra |].
  destruct (Z.ltb_spec z 70) as [H2 | H2].
  { assert (H2' : (z <= 69)%Z) by lia. apply IZR_le in H2'.
    destruct (Rlt_dec _ _); [reflexivity | exfalso; lra]. }
  apply IZR_le in H2. destruct (Rlt_dec _ _); [exfalso; lra |].
  reflexivity.
Qed.

(** Two items, the single day 2 January 2023, seed 0: with the
    categories drawn ahead the quantities are 3 and 1. *)
Lemma categories_first_counter :
  eval (categories_first (RS := Fixture.counter_stream) 2
                         Fixture.jan_2 Fixture.jan_2) (seed 0)
  = Ok [mk_record Fixture.jan_2 "SKU-0001" 3;
        mk_record Fixture.jan_2 "SKU-0002" 1].
Proof.
  assert (C0 : draw_category (RS := Fixture.counter_stream) 0%nat
               = Ok (smooth, 1%nat))
    by exact (draw_category_counter 0 0 eq_refl).
  assert (C1 : draw_category (RS := Fixture.counter_stream) 1%nat
               = Ok (erratic, 2%nat))
    by exact (draw_category_counter 1 37 eq_refl).
  assert (U7 : Fixture.unit_fraction 7 < 0.7)
    by (rewrite (unit_fraction_value 7 59 eq_refl); lra).
  assert (U14 : Fixture.unit_fraction 14 < 0.7)
    by (rewrite (unit_fraction_value 14 18 eq_refl); lra).
  pose proof (item_series_dense 0 smooth 2 (or_introl eq_refl) U7) as I0.
  pose proof (item_series_dense 1 erratic 9 (or_intror eq_refl) U14) as I1.
  unfold eval, categories_first.
  change (seed 0) with 0%nat.
  replace (days_between Fixture.jan_2 Fixture.jan_2) with [Fixture.jan_2]
    by reflexivity.
  cbv [bind ret for_all seq combine fst snd].
  rewrite C0, C1. cbv beta iota.
  change (2 + 7)%nat with 9%nat in I0. rewrite I0, I1.
  reflexivity.
Qed.

(** The same run in the order of the claim, the category of an item
    drawn right before its fields: the quantities are 2 and 0. *)
Lemma item_major_counter :
  eval (item_major (RS := Fixture.counter_stream) 2
                   Fixture.jan_2 Fixture.jan_2) (seed 0)
  = Ok [mk_record Fixture.jan_2 "SKU-0001" 2;
        mk_record Fixture.jan_2 "SKU-0002" 0].
Proof.
  assert (C0 : draw_category (RS := Fixture.counter_stream) 0%nat
               = Ok (smooth, 1%nat))
    by exact (draw_category_counter 0 0 eq_refl).
  assert (C8 : draw_category (RS := Fixture.counter_stream) 8%nat
               = Ok (lumpy, 9%nat))
    by exact (draw_category_counter 8 96 eq_refl).
  assert (U6 : Fixture.unit_fraction 6 < 0.7)
    by (rewrite (unit_fraction_value 6 22 eq_refl); lra).
  assert (U14 : 0.125 <= Fixture.unit_fraction 14)
    by (rewrite (unit_fraction_value 14 18 eq_refl); lra).
  pose proof (item_series_dense 0 smooth 1 (or_introl eq_refl) U6) as I0.
  pose proof (item_series_sparse 1 lumpy 9 (or_intror eq_refl) U14) as I1.
  unfold eval, item_major.
  change (seed 0) with 0%nat.
  replace (days_between Fixture.jan_2 Fixture.jan_2) with [Fixture.jan_2]
    by reflexivity.
  cbv [bind ret for_all seq].
  rewrite C0. cbv beta iota. change (1 + 7)%nat with 8%nat in I0.
  rewrite I0, C8. cbv beta iota. rewrite I1.
  reflexivity.
Qed.

(** The counterexample to C5 as it is stated: on two items, one day and
    seed 0 the generator and the per-item order give different tables. *)
Lemma item_major_order_refuted :
  generate_data (RS := Fixture.counter_stream) Fixture.iso_date
                2 "2023-01-02" "2023-01-02" 0
  = Ok [mk_record Fixture.jan_2 "SKU-0001" 3;
        mk_record Fixture.jan_2 "SKU-0002" 1] /\
  eval (item_major (RS := Fixture.counter_stream) 2
                   Fixture.jan_2 Fixture.jan_2) (seed 0)
  = Ok [mk_record Fixture.jan_2 "SKU-0001" 2;
        mk_record Fixture.jan_2 "SKU-0002" 0] /\
  generate_data (RS := Fixture.counter_stream) Fixture.iso_date
                2 "2023-01-02" "2023-01-02" 0
  <> eval (item_major (RS := Fixture.counter_stream) 2
                      Fixture.jan_2 Fixture.jan_2) (seed 0).
Proof.
  assert (E : generate_data (RS := Fixture.counter_stream) Fixture.iso_date
                            2 "2023-01-02" "2023-01-02" 0
              = Ok [mk_record Fixture.jan_2 "SKU-0001" 3;
                    mk_record Fixture.jan_2 "SKU-0002" 1]).
  { rewrite (generate_data_categories_first
               (RL := counter_stream_laws) Fixture.iso_date
               2 "2023-01-02" "2023-01-02" 0 Fixture.jan_2 Fixture.jan_2);
      [exact categories_first_counter | lia | lia | reflexivity
       | reflexivity]. }
  split; [exact E |]. split; [exact item_major_counter |].
  rewrite E, item_major_counter. discriminate.
Qed.

(** The counterexample to C6 as it is stated: with the end date before
    the start date the program does not fail; it writes the header line
    and no row. *)
Lemma end_before_start_not_refused :
  Fixture.iso_date "2023-01-02" = Some Fixture.jan_2 /\
  Fixture.iso_date "2023-01-01" = Some Fixture.jan_1 /\
  (Fixture.jan_1 < Fixture.jan_2)%Z /\
  main (RS := Fixture.counter_stream) Fixture.iso_date
       (mk_args 2 "2023-01-02" "2023-01-01" 0)
  = Ok ["Demand Date,Material,Demand Size"%string] /\
  forall e, main (RS := Fixture.counter_stream) Fixture.iso_date
                 (mk_args 2 "2023-01-02" "2023-01-01" 0) <> Raise e.
Proof.
  assert (E : main (RS := Fixture.counter_stream) Fixture.iso_date
                   (mk_args 2 "2023-01-02" "2023-01-01" 0)
              = Ok ["Demand Date,Material,Demand Size"%string]).
  { unfold main. cbn [arg_sku arg_start arg_end arg_seed].
    rewrite (generate_data_empty
               (RL := counter_stream_laws) Fixture.iso_date
               2 "2023-01-02" "2023-01-01" 0 Fixture.jan_2 Fixture.jan_1);
      [reflexivity | lia | lia | reflexivity | reflexivity
       | left; reflexivity]. }
  split; [reflexivity |]. split; [reflexivity |]. split; [reflexivity |].
  split; [exact E |]. intros e. rewrite E. discriminate.
Qed.

Lemma occurrence_certain_when_rate_saturates_witness :
  0 < 2 /\
  1 <= lam_today 0.9 1 0.1 Fixture.jan_1 Fixture.jul_3
                 (dowFactor (day_name_of Fixture.jul_3)) /\
  exists q s',
    day_body (RS := Fixture.counter_stream) Fixture.jan_1 "SKU-0001"
             0.9 1 0.1 2 (nb_params 2 0.5) Fixture.jul_3 [] 0%nat
    = Ok ([mk_record Fixture.jul_3 "SKU-0001" q], s') /\ (1 <= q)%Z.
Proof.
  assert (Hm : 0 < 2) by lra.
  assert (Hrate : 1 <= lam_today 0.9 1 0.1 Fixture.jan_1 Fixture.jul_3
                                 (dowFactor (day_name_of Fixture.jul_3))).
  { rewrite lam_today_effectiveRate. unfold effectiveRate.
    replace (Z.max (year Fixture.jul_3 - year Fixture.jan_1 - 1) 0)
      with 0%Z by reflexivity.
    replace (day_name_of Fixture.jul_3) with Monday by reflexivity.
    replace (month Fixture.jul_3) with 7%Z by reflexivity.
    replace (Rmax (1 - 0.1 * 0) 0.1) with 1
      by (unfold Rmax; destruct (Rle_dec _ _); lra).
    change (seasonalFactor 7) with 1.25.
    change (dowFactor Monday) with 1.0. lra. }
  split; [exact Hm |]. split; [exact Hrate |].
  destruct (occurrence_certain_when_rate_saturates
              (RS := Fixture.counter_stream) (RL := counter_stream_laws)
              Fixture.jan_1 "SKU-0001" 0.9 1 0.1 2 0.5 Fixture.jul_3 []
              0%nat Hm Hrate)
    as (_ & _ & q & s' & E & Hq).
  exists q, s'. split; [exact E | exact Hq].
Defined.

Lemma occurrence_probability_formula_witness :
  0 < 0.8 /\
  dict_get dow_dict (weekday Fixture.jan_7) = Some 0.6 /\
  lam_today 0.8 1 0 Fixture.jan_1 Fixture.jan_7 0.6
  = 0.8 * 0.6 * seasonalFactor (month Fixture.jan_7).
Proof.
  assert (Hlam : 0 < 0.8) by lra.
  split; [exact Hlam |].
  destruct (occurrence_probability_formula
              (RS := Fixture.counter_stream)
              0.8 1 0 Fixture.jan_1 Fixture.jan_7 Hlam)
    as (Hdict & Hname & _ & _ & _ & Hrate & _).
  replace (day_name_of Fixture.jan_7) with Saturday in * by reflexivity.
  change (dowFactor Saturday) with 0.6 in *.
  split; [exact Hdict |].
  rewrite Hrate.
  replace (Rmax (1 - 0 * IZR (Z.max (year Fixture.jan_7
                                     - year Fixture.jan_1 - 1) 0)) 0.1)
    with 1 by (unfold Rmax; destruct (Rle_dec _ _); lra).
  lra.
Defined.

Lemma sparse_items_never_saturate_witness :
  (slow = slow \/ slow = lumpy) /\
  exists lam pk dec mean_size cv_size s',
    sku_params (RS := Fixture.counter_stream) slow 0%nat
    = Ok ((lam, pk, dec, mean_size, cv_size), s') /\
    lam <= 0.1 /\
    lam_today lam pk dec Fixture.jan_1 Fixture.jul_3
              (dowFactor (day_name_of Fixture.jul_3)) < 1.
Proof.
  assert (Hc : slow = slow \/ slow = lumpy) by (left; reflexivity).
  split; [exact Hc |].
  destruct (sparse_items_never_saturate
              (RS := Fixture.counter_stream) (RL := counter_stream_laws)
              slow 0%nat Hc)
    as (lam & pk & dec & mean_size & cv_size & s' & E & _ & Hlam & Hday & _).
  exists lam, pk, dec, mean_size, cv_size, s'.
  split; [exact E |]. split; [exact Hlam |].
  apply (Hday Fixture.jan_1 Fixture.jul_3).
Defined.

Lemma invalid_configurations_witness :
  (0 <= 42 < 2 ^ 32)%Z /\
  main (RS := Fixture.counter_stream) Fixture.iso_date
       (mk_args (-1) "2023-01-01" "2023-01-02" 42)
  = Raise NegativeDimensions /\
  main (RS := Fixture.counter_stream) Fixture.iso_date
       (mk_args 2 "2023-01-01" "2023/01/02" 42)
  = Raise DateParseError /\
  main (RS := Fixture.counter_stream) Fixture.iso_date
       (mk_args 0 "2023-01-01" "2023-01-02" 42)
  = Ok [csv_header].
Proof.
  assert (Hsd : (0 <= 42 < 2 ^ 32)%Z) by (split; [discriminate | reflexivity]).
  split; [exact Hsd |]. split; [| split].
  - apply (invalid_configurations
             (RS := Fixture.counter_stream) (RL := counter_stream_laws)
             Fixture.iso_date
             (mk_args (-1) "2023-01-01" "2023-01-02" 42) Hsd).
    reflexivity.
  - apply (invalid_configurations
             (RS := Fixture.counter_stream) (RL := counter_stream_laws)
             Fixture.iso_date
             (mk_args 2 "2023-01-01" "2023/01/02" 42) Hsd).
    + discriminate.
    + right. reflexivity.
  - apply (proj2 (proj2 (invalid_configurations
             (RS := Fixture.counter_stream) (RL := counter_stream_laws)
             Fixture.iso_date
             (mk_args 0 "2023-01-01" "2023-01-02" 42) Hsd))
             Fixture.jan_1 Fixture.jan_2).
    + discriminate.
    + reflexivity.
    + reflexivity.
    + right. reflexivity.
Defined.

(** * Further properties of the code *)

(** ** The solver [nb_params] *)

Lemma nb_ratio (mean variance : R) :
  0 < mean -> mean < variance ->
  mean ^ 2 / (variance - mean) / (mean ^ 2 / (variance - mean) + mean)
  = mean / variance.
Proof. intros Hm Hv. field. repeat split; nra. Qed.

Lemma nb_params_ratio (mean cv : R) :
  0 < mean -> mean < (cv * mean) ^ 2 ->
  nb_params mean cv
  = Some (mean ^ 2 / ((cv * mean) ^ 2 - mean),
          np_clip (mean / (cv * mean) ^ 2) 1e-6 (1 - 1e-6)).
Proof.
  intros Hm Hv. rewrite <- (nb_ratio mean ((cv * mean) ^ 2) Hm Hv).
  now apply nb_params_Some.
Qed.



(** X2: on the sizes that the generator draws, when the clip leaves the
    probability alone, the negative binomial law with the returned shape
    r and probability p has the mean and the variance that were asked
    for: r (1 - p) / p = mean and r (1 - p) / p^2 = (cv * mean)^2. *)
Theorem nb_params_matches_moments (mean cv r p : R) :
  1 <= mean <= 10 -> 0.3 <= cv <= 2.5 ->
  nb_params mean cv = Some (r, p) ->
  1e-6 <= mean / (cv * mean) ^ 2 <= 1 - 1e-6 ->
  p = mean / (cv * mean) ^ 2 /\
  r * (1 - p) / p = mean /\
  r * (1 - p) / p ^ 2 = (cv * mean) ^ 2.
Proof.
  intros Hm Hcv E Hclip.
  assert (Hv : mean < (cv * mean) ^ 2).
  { destruct (Rle_dec ((cv * mean) ^ 2) mean) as [H | H]; [| lra].
    apply nb_params_None in H. congruence. }
  pose proof (nb_params_ratio mean cv ltac:(lra) Hv) as E'.
  set (variance := (cv * mean) ^ 2) in *.
  assert (Er : r = mean ^ 2 / (variance - mean)) by congruence.
  assert (Ep : p = np_clip (mean / variance) 1e-6 (1 - 1e-6))
    by congruence.
  assert (Hp : p = mean / variance).
  { rewrite Ep. unfold np_clip, Rmin, Rmax.
    destruct (Rle_dec (mean / variance) 1e-6);
      destruct (Rle_dec _ (1 - 1e-6)); lra. }
  split; [exact Hp |]. rewrite Hp, Er.
  split; field; repeat split; lra.
Qed.

Lemma nb_params_matches_moments_witness :
  1 <= 4 <= 10 /\ 0.3 <= 1 <= 2.5 /\
  nb_params 4 1
  = Some (4 ^ 2 / ((1 * 4) ^ 2 - 4),
          np_clip (4 / (1 * 4) ^ 2) 1e-6 (1 - 1e-6)) /\
  1e-6 <= 4 / (1 * 4) ^ 2 <= 1 - 1e-6 /\
  np_clip (4 / (1 * 4) ^ 2) 1e-6 (1 - 1e-6) = 4 / (1 * 4) ^ 2.
Proof.
  assert (Hm : 1 <= 4 <= 10) by lra.
  assert (Hcv : 0.3 <= 1 <= 2.5) by lra.
  assert (E : nb_params 4 1
              = Some (4 ^ 2 / ((1 * 4) ^ 2 - 4),
                      np_clip (4 / (1 * 4) ^ 2) 1e-6 (1 - 1e-6)))
    by (apply (nb_params_ratio 4 1); lra).
  assert (Hc : 1e-6 <= 4 / (1 * 4) ^ 2 <= 1 - 1e-6) by lra.
  split; [exact Hm |]. split; [exact Hcv |]. split; [exact E |].
  split; [exact Hc |].
  exact (proj1 (nb_params_matches_moments 4 1 _ _ Hm Hcv E Hc)).
Defined.



(** X4: on the sizes that the generator draws, which law an item gets
    follows from its dispersion: with a mean in [1, 10], a size with cv in
    [0.3, 0.6] and mean at most 25/9 is drawn from the Poisson law; a size
    with cv in [0.8, 2.5] and mean above 25/16 is drawn from the negative
    binomial law. *)
Theorem size_law_by_dispersion (mean cv : R) :
  1 <= mean <= 10 ->
  (0.3 <= cv <= 0.6 -> mean <= 25 / 9 -> nb_params mean cv = None) /\
  (0.8 <= cv <= 2.5 -> 25 / 16 < mean -> nb_params mean cv <> None).
Proof.
  intros Hm. split.
  - intros Hcv Hmean. apply nb_params_None.
    assert (cv ^ 2 <= 0.36) by nra.
    replace ((cv * mean) ^ 2) with (cv ^ 2 * mean * mean) by ring. nra.
  - intros Hcv Hmean H. apply nb_params_None in H.
    assert (0.64 <= cv ^ 2) by nra.
    replace ((cv * mean) ^ 2) with (cv ^ 2 * mean * mean) in H by ring.
    nra.
Qed.

Lemma size_law_by_dispersion_witness :
  1 <= 2 <= 10 /\ nb_params 2 0.5 = None /\ nb_params 2 1 <> None.
Proof.
  assert (Hm : 1 <= 2 <= 10) by lra.
  split; [exact Hm |].
  destruct (size_law_by_dispersion 2 0.5 Hm) as (HP & _).
  destruct (size_law_by_dispersion 2 1 Hm) as (_ & HN).
  split; [apply HP; lra | apply HN; lra].
Defined.

(** ** The constants drawn for an item *)

Ltac draw_ranges :=
  repeat match goal with
         | |- context [fst (random_sample ?s)] =>
             lazymatch goal with
             | H : 0 <= fst (random_sample s) < 1 |- _ => fail
             | _ => pose proof (random_sample_range s)
             end
         end.

Lemma pow10_lower (u : R) : -3.5 <= u -> Rpower 10 (-3.5) <= Rpower 10 u.
Proof. intros Hu. apply Rle_Rpower; lra. Qed.

(** X5: the five constants of an item are always drawn, each in its range:
    the daily rate in [0.7, 1.0] for a smooth or erratic item and in
    [10^-3.5, 0.1] for a slow or lumpy one, the peak year 1, 2 or 3, the
    decay in [0.05, 0.15], the mean size in [1, 10], and the cv in
    [0.3, 0.6] for a smooth or slow item and in [0.8, 2.5] for an erratic
    or lumpy one. *)
Theorem sku_params_ranges {RS : RandomState} {RL : RandomStateLaws RS}
        (cat : category) (s : rng) :
  exists lam pk dec mean cv s',
    sku_params cat s = Ok ((lam, pk, dec, mean, cv), s') /\
    (cat = smooth \/ cat = erratic -> 0.7 <= lam <= 1.0) /\
    (cat = slow \/ cat = lumpy -> Rpower 10 (-3.5) <= lam <= 0.1) /\
    (pk = 1 \/ pk = 2 \/ pk = 3)%Z /\
    0.05 <= dec <= 0.15 /\ 1 <= mean <= 10 /\
    (cat = smooth \/ cat = slow -> 0.3 <= cv <= 0.6) /\
    (cat = erratic \/ cat = lumpy -> 0.8 <= cv <= 2.5).
Proof.
  unfold sku_params, np_uniform, np_randint.
  destruct cat; cbn [cat_in existsb category_eqb orb];
    repeat (rewrite ?bind_assoc, ?bind_draw, ?bind_ret_l);
    do 6 eexists; (split; [reflexivity |]);
    draw_ranges;
    repeat match goal with
           | |- context [Rpower 10 ?u] =>
               lazymatch goal with
               | H : Rpower 10 u <= 0.1 |- _ => fail
               | _ => assert (Rpower 10 u <= 0.1)
                        by (apply pow10_le_tenth; lra);
                      assert (Rpower 10 (-3.5) <= Rpower 10 u)
                        by (apply pow10_lower; lra)
               end
           end;
    repeat match goal with
           | |- _ /\ _ => split
           | |- _ \/ _ -> _ => intros [HC | HC]; try discriminate HC
           | |- (_ = 1 \/ _ = 2 \/ _ = 3)%Z =>
               match goal with
               | |- context [randint 1 4 ?s0] =>
                   pose proof (randint_range 1 4 s0 ltac:(lia)); lia
               end
           end;
    try lra.
Qed.

Lemma sku_params_ranges_witness :
  exists lam pk dec mean cv s',
    sku_params (RS := Fixture.counter_stream) lumpy 0%nat
    = Ok ((lam, pk, dec, mean, cv), s') /\
    Rpower 10 (-3.5) <= lam <= 0.1 /\ 0.8 <= cv <= 2.5.
Proof.
  destruct (sku_params_ranges (RS := Fixture.counter_stream)
                              (RL := counter_stream_laws) lumpy 0%nat)
    as (lam & pk & dec & mean & cv & s' & E & _ & Hlam & _ & _ & _ & _ & Hcv).
  exists lam, pk, dec, mean, cv, s'.
  split; [exact E |].
  split; [apply Hlam; right; reflexivity | apply Hcv; right; reflexivity].
Defined.

(** ** Ageing and the rate of a day *)

(** X6: up to and including the peak year nothing decays: the aged rate is
    the daily rate, whatever the decay. *)
Theorem no_decay_up_to_peak_year (lam : R) (pk : Z) (dec : R)
        (t0 d : date) :
  (year d - year t0 <= pk)%Z -> lam_adj lam pk dec t0 d = lam.
Proof.
  intros Hy. unfold lam_adj. rewrite py_max_Rmax.
  replace (Z.max (year d - year t0 - pk) 0) with 0%Z by lia.
  replace (Rmax (1 - dec * 0) 0.1) with 1
    by (unfold Rmax; destruct (Rle_dec _ _); lra).
  ring.
Qed.

Lemma no_decay_up_to_peak_year_witness :
  (year Fixture.jul_3 - year Fixture.jan_1 <= 1)%Z /\
  lam_adj 0.8 1 0.1 Fixture.jan_1 Fixture.jul_3 = 0.8.
Proof.
  assert (Hy : (year Fixture.jul_3 - year Fixture.jan_1 <= 1)%Z)
    by discriminate.
  split; [exact Hy |].
  exact (no_decay_up_to_peak_year 0.8 1 0.1 Fixture.jan_1 Fixture.jul_3 Hy).
Defined.

(** X7: ageing never raises the rate: of two days, the one in the later
    calendar year has the smaller or equal aged rate. *)
Theorem ageing_never_raises_rate (lam : R) (pk : Z) (dec : R)
        (t0 d1 d2 : date) :
  0 <= lam -> 0 <= dec -> (year d1 <= year d2)%Z ->
  lam_adj lam pk dec t0 d2 <= lam_adj lam pk dec t0 d1.
Proof.
  intros Hlam Hdec Hy. unfold lam_adj. rewrite !py_max_Rmax.
  set (k1 := Z.max (year d1 - year t0 - pk) 0).
  set (k2 := Z.max (year d2 - year t0 - pk) 0).
  assert (H1 : 0 <= IZR k1) by (apply IZR_le; unfold k1; lia).
  assert (H12 : IZR k1 <= IZR k2) by (apply IZR_le; unfold k1, k2; lia).
  assert (Hd : dec * IZR k1 <= dec * IZR k2)
    by (apply Rmult_le_compat_l; assumption).
  apply Rmult_le_compat_l; [exact Hlam |].
  unfold Rmax. repeat destruct (Rle_dec _ _); lra.
Qed.

Lemma ageing_never_raises_rate_witness :
  0 <= 0.8 /\ 0 <= 0.1 /\ (year Fixture.jan_1 <= year Fixture.jul_3)%Z /\
  lam_adj 0.8 1 0.1 Fixture.jan_1 Fixture.jul_3
  <= lam_adj 0.8 1 0.1 Fixture.jan_1 Fixture.jan_1.
Proof.
  assert (Hlam : 0 <= 0.8) by lra.
  assert (Hdec : 0 <= 0.1) by lra.
  assert (Hy : (year Fixture.jan_1 <= year Fixture.jul_3)%Z)
    by discriminate.
  split; [exact Hlam |]. split; [exact Hdec |]. split; [exact Hy |].
  exact (ageing_never_raises_rate 0.8 1 0.1 Fixture.jan_1 Fixture.jan_1
                                  Fixture.jul_3 Hlam Hdec Hy).
Defined.

(** X8: with a decay of at most 0.15, as the generator draws it, the floor
    of one tenth is idle for the first six years after the peak year: the
    aged rate is the daily rate times 1 - decay * years.  The floor takes
    over once decay * years reaches 0.9, and the aged rate then stays at
    a tenth of the daily rate. *)
Theorem ageing_floor_threshold (lam : R) (pk : Z) (dec : R)
        (t0 d : date) :
  0 <= dec <= 0.15 ->
  let k := Z.max (year d - year t0 - pk) 0 in
  ((k <= 6)%Z -> lam_adj lam pk dec t0 d = lam * (1 - dec * IZR k)) /\
  (0.9 <= dec * IZR k -> lam_adj lam pk dec t0 d = lam * 0.1).
Proof.
  intros Hdec k. unfold lam_adj. rewrite py_max_Rmax. fold k.
  assert (H0 : 0 <= IZR k) by (apply IZR_le; unfold k; lia).
  split.
  - intros Hk. apply IZR_le in Hk.
    assert (dec * IZR k <= 0.15 * 6)
      by (apply Rmult_le_compat; lra).
    f_equal. unfold Rmax. destruct (Rle_dec _ _); lra.
  - intros Hk. f_equal. unfold Rmax. destruct (Rle_dec _ _); lra.
Qed.

Lemma ageing_floor_threshold_witness :
  0 <= 0.1 <= 0.15 /\
  lam_adj 0.8 1 0.1 Fixture.jan_1 Fixture.jul_3
  = 0.8 * (1 - 0.1 * IZR (Z.max (year Fixture.jul_3
                                  - year Fixture.jan_1 - 1) 0)).
Proof.
  assert (Hdec : 0 <= 0.1 <= 0.15) by lra.
  split; [exact Hdec |].
  apply (ageing_floor_threshold 0.8 1 0.1 Fixture.jan_1 Fixture.jul_3 Hdec).
  discriminate.
Defined.

(** X9: the rate that a day's uniform draw is compared with lies between
    0.04 and 1.25 times the daily rate: the ageing factor is in [0.1, 1],
    the weekday factor in [0.4, 1] and the seasonal factor in [1, 1.25].
    With a positive daily rate no day has rate zero. *)
Theorem rate_of_a_day_bounds (lam : R) (pk : Z) (dec : R) (t0 d : date) :
  0 <= lam -> 0 <= dec ->
  0.04 * lam <= lam_today lam pk dec t0 d (dowFactor (day_name_of d))
  <= 1.25 * lam.
Proof.
  intros Hlam Hdec. rewrite lam_today_effectiveRate. unfold effectiveRate.
  pose proof (ageing_range dec (year d - year t0 - pk) Hdec) as Ha.
  pose proof (dowFactor_range (day_name_of d)) as Hn.
  pose proof (seasonalFactor_range (month d)) as Hs.
  set (A := Rmax _ _) in *. set (D := dowFactor _) in *.
  set (S := seasonalFactor _) in *.
  assert (HAD : 0.04 <= A * D <= 1) by nra.
  assert (HADS : 0.04 <= A * D * S <= 1.25) by nra.
  replace (lam * A * D * S) with (lam * (A * D * S)) by ring.
  nra.
Qed.

Lemma rate_of_a_day_bounds_witness :
  0 <= 0.8 /\ 0 <= 0.1 /\
  0.04 * 0.8
  <= lam_today 0.8 1 0.1 Fixture.jan_1 Fixture.jan_7
               (dowFactor (day_name_of Fixture.jan_7)).
Proof.
  assert (Hlam : 0 <= 0.8) by lra.
  assert (Hdec : 0 <= 0.1) by lra.
  split; [exact Hlam |]. split; [exact Hdec |].
  exact (proj1 (rate_of_a_day_bounds 0.8 1 0.1 Fixture.jan_1 Fixture.jan_7
                                     Hlam Hdec)).
Defined.

(** ** Item identifiers *)

Lemma forallb_seq (f : nat -> bool) (n i : nat) :
  forallb f (seq 0 n) = true -> (i < n)%nat -> f i = true.
Proof.
  intros H Hi. rewrite forallb_forall in H. apply H, in_seq. lia.
Qed.

(** X10: the identifier of an item is "SKU-" followed by digits that read
    back as the item's number, idx + 1; so two items never share an
    identifier, however many items there are. *)
Theorem sku_name_reads_back (idx : nat) :
  (exists digits,
      sku_name idx = ("SKU-" ++ digits)%string /\
      Fmt.read_decimal digits = Some (N.of_nat (idx + 1))) /\
  (forall j, sku_name idx = sku_name j -> idx = j).
Proof.
  split.
  - exists (Fmt.zero_padded 4 (N.of_nat (idx + 1))).
    split; [reflexivity | apply read_zero_padded].
  - intros j. apply sku_name_inj.
Qed.

(** X11: up to 9999 items the identifier has exactly four digits, eight
    characters in all; the ten-thousandth has five. *)
Theorem sku_name_width (idx : nat) :
  (Z.of_nat idx < 9999)%Z ->
  String.length (sku_name idx) = 8%nat /\
  String.length (sku_name (Z.to_nat 9999)) = 9%nat.
Proof.
  intros Hidx. split; [| vm_compute; reflexivity].
  apply Nat.eqb_eq.
  apply (forallb_seq (fun i => String.length (sku_name i) =? 8)%nat
                     (Z.to_nat 9999));
    [vm_compute; reflexivity | lia].
Qed.

Lemma sku_name_width_witness :
  (Z.of_nat 41 < 9999)%Z /\ String.length (sku_name 41) = 8%nat.
Proof.
  assert (H : (Z.of_nat 41 < 9999)%Z) by reflexivity.
  split; [exact H |]. exact (proj1 (sku_name_width 41 H)).
Defined.

Lemma sku_name_next_checked :
  forallb (fun i => match String.compare (sku_name i) (sku_name (S i))
                    with Lt => true | _ => false end)
          (seq 0 (Z.to_nat 9998)) = true.
Proof. vm_compute. reflexivity. Qed.

Lemma sku_name_next (i : nat) :
  (Z.of_nat (S i) < 9999)%Z ->
  String.compare (sku_name i) (sku_name (S i)) = Lt.
Proof.
  intros Hi.
  pose proof (forallb_seq _ _ i sku_name_next_checked ltac:(lia)) as H.
  cbv beta in H.
  now destruct (String.compare (sku_name i) (sku_name (S i))).
Qed.

Lemma sku_name_ascending (i j : nat) :
  (i < j)%nat -> (Z.of_nat j < 9999)%Z ->
  String.compare (sku_name i) (sku_name j) = Lt.
Proof.
  intros Hij. induction Hij as [| j Hij IH]; intros Hj.
  - apply sku_name_next. exact Hj.
  - apply string_compare_lt_trans with (sku_name j).
    + apply IH. lia.
    + apply sku_name_next. exact Hj.
Qed.

(** X12: identifiers are compared as strings.  Up to 9999 items this is the
    order of the item numbers; from the ten-thousandth item on it is not:
    "SKU-10000" comes before "SKU-1001". *)
Theorem sku_name_order (i j : nat) :
  (Z.of_nat i < 9999)%Z -> (Z.of_nat j < 9999)%Z ->
  (String.compare (sku_name i) (sku_name j) = Lt <-> (i < j)%nat) /\
  String.compare (sku_name (Z.to_nat 9999)) (sku_name (Z.to_nat 1000)) = Lt.
Proof.
  intros Hi Hj. split; [| vm_compute; reflexivity]. split.
  - intros H. destruct (Nat.lt_trichotomy i j) as [L | [E | G]].
    + exact L.
    + subst j. rewrite string_compare_refl in H. discriminate.
    + pose proof (sku_name_ascending j i G Hi) as H'.
      rewrite String.compare_antisym, H' in H. discriminate.
  - intros L. now apply sku_name_ascending.
Qed.

Lemma sku_name_order_witness :
  (Z.of_nat 8 < 9999)%Z /\ (Z.of_nat 9 < 9999)%Z /\
  String.compare (sku_name 8) (sku_name 9) = Lt.
Proof.
  assert (H8 : (Z.of_nat 8 < 9999)%Z) by reflexivity.
  assert (H9 : (Z.of_nat 9 < 9999)%Z) by reflexivity.
  split; [exact H8 |]. split; [exact H9 |].
  exact (proj2 (proj1 (sku_name_order 8 9 H8 H9)) (Nat.lt_succ_diag_r 8)).
Defined.

(** ** The order of the rows *)

Lemma key_le_refl (x : record) : key_le x x.
Proof. right. split; [reflexivity | lia]. Qed.

(** Sorting a table that is sorted already changes nothing. *)
Lemma stable_sort_sorted (l : table) :
  StronglySorted key_le l -> stable_sort l = l.
Proof.
  induction 1 as [| x l Hs IH Hx]; simpl; [reflexivity |].
  rewrite IH. destruct l as [| y l']; [reflexivity |].
  simpl. inversion Hx as [| ? ? Hxy _]; subst.
  apply key_leb_iff in Hxy. now rewrite Hxy.
Qed.

Lemma sorted_append {A : Type} (R : A -> A -> Prop) (l1 l2 : list A) :
  StronglySorted R l1 -> StronglySorted R l2 ->
  (forall x y, In x l1 -> In y l2 -> R x y) ->
  StronglySorted R (l1 ++ l2).
Proof.
  induction 1 as [| x l1 Hs IH Hx]; intros H2 Hc; simpl; [exact H2 |].
  constructor.
  - apply IH; [exact H2 |]. intros y z Hy Hz. apply Hc; [now right | exact Hz].
  - apply Forall_app. split; [exact Hx |].
    apply Forall_forall. intros z Hz. apply Hc; [now left | exact Hz].
Qed.

Lemma sorted_map_inv {A B : Type} (R : B -> B -> Prop) (f : A -> B)
      (l : list A) :
  StronglySorted R (map f l) ->
  StronglySorted (fun x y => R (f x) (f y)) l.
Proof.
  induction l as [| x l IH]; simpl; intros H; [constructor |].
  inversion H as [| ? ? Hs Hx]; subst. constructor; [now apply IH |].
  apply Forall_forall. intros y Hy.
  rewrite Forall_forall in Hx. apply Hx. now apply in_map.
Qed.

Lemma days_between_sorted (a b : date) :
  StronglySorted Z.le (days_between a b).
Proof.
  unfold days_between. generalize (Z.to_nat (b - a + 1)) as len.
  generalize 0%nat as start. intros start len. revert start.
  induction len as [| len IH]; intros start; simpl; constructor.
  - apply IH.
  - apply Forall_forall. intros d Hd. apply in_map_iff in Hd.
    destruct Hd as (i & <- & Hi). apply in_seq in Hi. lia.
Qed.

(** The keys in the order of generation are in the order of the sort
    while the identifiers have four digits. *)
Lemma all_keys_sorted (n : nat) (days : list date) :
  (Z.of_nat n <= 9999)%Z -> StronglySorted Z.le days ->
  StronglySorted
    (fun k1 k2 : string * date =>
       String.compare (fst k1) (fst k2) = Lt \/
       (fst k1 = fst k2 /\ (snd k1 <= snd k2)%Z))
    (all_keys n days).
Proof.
  intros Hn Hdays. unfold all_keys.
  replace n with (0 + n)%nat in Hn by reflexivity.
  revert Hn. generalize 0%nat as start. intros start. revert start.
  induction n as [| n IH]; intros start Hn; simpl; [constructor |].
  apply sorted_append.
  - clear IH Hn. induction Hdays as [| d days Hs IHd Hd]; simpl;
      constructor; [exact IHd |].
    apply Forall_forall. intros k Hk. apply in_map_iff in Hk.
    destruct Hk as (d' & <- & Hd'). right. split; [reflexivity |].
    rewrite Forall_forall in Hd. now apply Hd.
  - apply IH. lia.
  - intros k1 k2 H1 H2. left.
    apply in_map_iff in H1. destruct H1 as (d1 & <- & _).
    apply in_flat_map in H2. destruct H2 as (j & Hj & H2).
    apply in_map_iff in H2. destruct H2 as (d2 & <- & _).
    apply in_seq in Hj. simpl. apply sku_name_ascending; lia.
Qed.

(** X13: with at most 9999 items the sort has nothing to do: the rows of the
    table are in the order in which the loops appended them, item after
    item and, within an item, day after day. *)
Theorem rows_in_generation_order
        {RS : RandomState} {RL : RandomStateLaws RS}
        (to_datetime : string -> option date)
        (n_sku : Z) (start_date end_date : string) (sd : Z) (a b : date) :
  (0 <= sd < 2 ^ 32)%Z -> (0 <= n_sku <= 9999)%Z ->
  to_datetime start_date = Some a -> to_datetime end_date = Some b ->
  exists df,
    generate_data to_datetime n_sku start_date end_date sd = Ok df /\
    map key df
    = flat_map (fun idx => map (fun d => (sku_name idx, d))
                               (days_between a b))
               (seq 0 (Z.to_nat n_sku)).
Proof.
  intros Hsd Hn Ha Hb.
  destruct (generate_data_table to_datetime n_sku start_date end_date sd
                                a b Hsd ltac:(lia) Ha Hb)
    as (recs & E & Hk & _).
  exists recs. split; [| exact Hk].
  rewrite E. f_equal. unfold sort_values. apply stable_sort_sorted.
  pose proof (all_keys_sorted (Z.to_nat n_sku) (days_between a b)
                              ltac:(lia) (days_between_sorted a b)) as Hs.
  rewrite <- Hk in Hs. apply sorted_map_inv in Hs. exact Hs.
Qed.

Lemma rows_in_generation_order_witness :
  (0 <= 1 < 2 ^ 32)%Z /\ (0 <= 2 <= 9999)%Z /\
  Fixture.iso_date "2023-01-01" = Some Fixture.jan_1 /\
  Fixture.iso_date "2023-01-02" = Some Fixture.jan_2 /\
  exists df,
    generate_data (RS := Fixture.counter_stream) Fixture.iso_date
                  2 "2023-01-01" "2023-01-02" 1 = Ok df /\
    map key df
    = [("SKU-0001"%string, Fixture.jan_1);
       ("SKU-0001"%string, Fixture.jan_2);
       ("SKU-0002"%string, Fixture.jan_1);
       ("SKU-0002"%string, Fixture.jan_2)].
Proof.
  assert (Hsd : (0 <= 1 < 2 ^ 32)%Z) by (split; [discriminate | reflexivity]).
  assert (Hn : (0 <= 2 <= 9999)%Z) by (split; discriminate).
  assert (Ha : Fixture.iso_date "2023-01-01" = Some Fixture.jan_1)
    by reflexivity.
  assert (Hb : Fixture.iso_date "2023-01-02" = Some Fixture.jan_2)
    by reflexivity.
  repeat (split; [assumption |]).
  destruct (rows_in_generation_order
              (RS := Fixture.counter_stream) (RL := counter_stream_laws)
              Fixture.iso_date 2 "2023-01-01" "2023-01-02" 1
              Fixture.jan_1 Fixture.jan_2 Hsd Hn Ha Hb)
    as (df & E & Hk).
  exists df. split; [exact E |]. rewrite Hk. reflexivity.
Defined.

(** In a sorted table a row comes before every row that is not below
    it. *)
Lemma sorted_before (l : table) (x y : record) :
  StronglySorted key_le l -> In x l -> In y l -> ~ key_le y x ->
  exists l1 l2 l3, l = l1 ++ x :: l2 ++ y :: l3.
Proof.
  intros Hs. revert x y.
  induction Hs as [| z l Hs IH Hz]; intros x y Hx Hy Hn; [easy |].
  rewrite Forall_forall in Hz.
  destruct Hx as [-> | Hx].
  - destruct Hy as [-> | Hy]; [exfalso; apply Hn, key_le_refl |].
    apply in_split in Hy. destruct Hy as (l2 & l3 & ->).
    now exists [], l2, l3.
  - destruct Hy as [-> | Hy]; [exfalso; now apply Hn, Hz |].
    destruct (IH x y Hx Hy Hn) as (l1 & l2 & l3 & ->).
    now exists (z :: l1), l2, l3.
Qed.

(** X14: from the ten-thousandth item on the table is no longer in the order
    of the item numbers: the rows of "SKU-10000" come before the rows of
    "SKU-1001", because identifiers are compared as strings. *)
Theorem ten_thousandth_item_sorts_early
        {RS : RandomState} {RL : RandomStateLaws RS}
        (to_datetime : string -> option date)
        (n_sku : Z) (start_date end_date : string) (sd : Z) (a b : date) :
  (0 <= sd < 2 ^ 32)%Z -> (10000 <= n_sku)%Z ->
  to_datetime start_date = Some a -> to_datetime end_date = Some b ->
  (a <= b)%Z ->
  exists df l1 r1 l2 r2 l3,
    generate_data to_datetime n_sku start_date end_date sd = Ok df /\
    df = l1 ++ r1 :: l2 ++ r2 :: l3 /\
    material r1 = "SKU-10000"%string /\ material r2 = "SKU-1001"%string.
Proof.
  intros Hsd Hn Ha Hb Hab.
  destruct (generate_data_table to_datetime n_sku start_date end_date sd
                                a b Hsd ltac:(lia) Ha Hb)
    as (recs & E & Hk & _).
  assert (Hrow : forall idx, (idx < Z.to_nat n_sku)%nat ->
                 exists r, In r (sort_values recs) /\
                           material r = sku_name idx).
  { intros idx Hidx.
    assert (Hin : In (sku_name idx, a) (map key recs)).
    { rewrite Hk. apply all_keys_In. exists idx.
      split; [exact Hidx |]. split; [reflexivity |].
      apply days_between_In. lia. }
    apply in_map_iff in Hin. destruct Hin as (r & Hr & Hin).
    exists r. split.
    - apply (Permutation_in _ (Permutation_sym (sort_values_perm recs))).
      exact Hin.
    - now injection Hr. }
  destruct (Hrow (Z.to_nat 9999) ltac:(lia)) as (r1 & Hin1 & Hm1).
  destruct (Hrow (Z.to_nat 1000) ltac:(lia)) as (r2 & Hin2 & Hm2).
  assert (N1 : sku_name (Z.to_nat 9999) = "SKU-10000"%string)
    by (vm_compute; reflexivity).
  assert (N2 : sku_name (Z.to_nat 1000) = "SKU-1001"%string)
    by (vm_compute; reflexivity).
  rewrite N1 in Hm1. rewrite N2 in Hm2.
  destruct (sorted_before (sort_values recs) r1 r2
                          (sort_values_sorted recs) Hin1 Hin2)
    as (l1 & l2 & l3 & Hsplit).
  { unfold key_le. rewrite Hm1, Hm2.
    intros [H | [H _]]; vm_compute in H; discriminate H. }
  exists (sort_values recs), l1, r1, l2, r2, l3.
  repeat split; assumption.
Qed.

Lemma ten_thousandth_item_sorts_early_witness :
  (0 <= 1 < 2 ^ 32)%Z /\ (10000 <= 10000)%Z /\
  Fixture.iso_date "2023-01-01" = Some Fixture.jan_1 /\
  (Fixture.jan_1 <= Fixture.jan_1)%Z /\
  exists df l1 r1 l2 r2 l3,
    generate_data (RS := Fixture.counter_stream) Fixture.iso_date
                  10000 "2023-01-01" "2023-01-01" 1 = Ok df /\
    df = l1 ++ r1 :: l2 ++ r2 :: l3 /\
    material r1 = "SKU-10000"%string /\ material r2 = "SKU-1001"%string.
Proof.
  assert (Hsd : (0 <= 1 < 2 ^ 32)%Z) by (split; [discriminate | reflexivity]).
  assert (Hn : (10000 <= 10000)%Z) by discriminate.
  assert (Ha : Fixture.iso_date "2023-01-01" = Some Fixture.jan_1)
    by reflexivity.
  assert (Hab : (Fixture.jan_1 <= Fixture.jan_1)%Z) by discriminate.
  repeat (split; [assumption |]).
  exact (ten_thousandth_item_sorts_early
           (RS := Fixture.counter_stream) (RL := counter_stream_laws)
           Fixture.iso_date 10000 "2023-01-01" "2023-01-01" 1
           Fixture.jan_1 Fixture.jan_1 Hsd Hn Ha Ha Hab).
Defined.

(** ** Seeding and the file *)

(** X15: [np.random.seed] comes first: a seed below 0 or above 2^32 - 1 stops
    the generator and the program with NumPy's error, whatever the
    other arguments are, valid or not. *)
Theorem seed_out_of_range_refused {RS : RandomState}
        (to_datetime : string -> option date) (a : args) :
  (arg_seed a < 0 \/ 2 ^ 32 <= arg_seed a)%Z ->
  generate_data to_datetime (arg_sku a) (arg_start a) (arg_end a)
                (arg_seed a) = Raise SeedError /\
  main to_datetime a = Raise SeedError.
Proof.
  intros Hsd.
  assert (E : generate_data to_datetime (arg_sku a) (arg_start a)
                            (arg_end a) (arg_seed a) = Raise SeedError).
  { unfold generate_data. now rewrite np_random_seed_refused. }
  split; [exact E |]. unfold main. now rewrite E.
Qed.

Lemma seed_out_of_range_refused_witness :
  (-1 < 0 \/ 2 ^ 32 <= -1)%Z /\
  main (RS := Fixture.counter_stream) Fixture.iso_date
       (mk_args 2 "2023-01-01" "2023-01-02" (-1))
  = Raise SeedError.
Proof.
  assert (Hsd : (-1 < 0 \/ 2 ^ 32 <= -1)%Z) by (left; reflexivity).
  split; [exact Hsd |].
  exact (proj2 (seed_out_of_range_refused
                  (RS := Fixture.counter_stream) Fixture.iso_date
                  (mk_args 2 "2023-01-01" "2023-01-02" (-1)) Hsd)).
Defined.

(** X17: on a well-formed input the program writes the header line and then
    one line per row of the table, in the order of the table:
    1 + numItems * numDays lines in all. *)
Theorem main_writes_one_line_per_row
        {RS : RandomState} {RL : RandomStateLaws RS}
        (to_datetime : string -> option date) (a : args) (t0 t1 : date) :
  (0 <= arg_seed a < 2 ^ 32)%Z -> (0 <= arg_sku a)%Z ->
  to_datetime (arg_start a) = Some t0 ->
  to_datetime (arg_end a) = Some t1 -> (t0 <= t1)%Z ->
  exists df,
    generate_data to_datetime (arg_sku a) (arg_start a) (arg_end a)
                  (arg_seed a) = Ok df /\
    main to_datetime a = Ok (csv_header :: map csv_row df) /\
    Z.of_nat (List.length (csv_header :: map csv_row df))
    = (1 + arg_sku a * (t1 - t0 + 1))%Z.
Proof.
  intros Hsd Hn H0 H1 Hle.
  destruct (generate_data_table to_datetime (arg_sku a) (arg_start a)
                                (arg_end a) (arg_seed a) t0 t1
                                Hsd Hn H0 H1)
    as (recs & E & Hk & _).
  exists (sort_values recs). split; [exact E |]. split.
  - unfold main. now rewrite E.
  - cbn [List.length]. rewrite length_map.
    rewrite (Permutation_length (sort_values_perm recs)).
    rewrite <- (length_map key), Hk, all_keys_length.
    rewrite Nat2Z.inj_succ, Nat2Z.inj_mul, days_between_length,
      Z2Nat.id by lia.
    unfold numDaysInclusive. lia.
Qed.

Lemma main_writes_one_line_per_row_witness :
  (0 <= 1 < 2 ^ 32)%Z /\ (0 <= 2)%Z /\
  Fixture.iso_date "2023-01-01" = Some Fixture.jan_1 /\
  Fixture.iso_date "2023-01-02" = Some Fixture.jan_2 /\
  (Fixture.jan_1 <= Fixture.jan_2)%Z /\
  exists lines,
    main (RS := Fixture.counter_stream) Fixture.iso_date
         (mk_args 2 "2023-01-01" "2023-01-02" 1) = Ok lines /\
    Z.of_nat (List.length lines) = 5%Z.
Proof.
  assert (Hsd : (0 <= 1 < 2 ^ 32)%Z) by (split; [discriminate | reflexivity]).
  assert (Hn : (0 <= 2)%Z) by discriminate.
  assert (Ha : Fixture.iso_date "2023-01-01" = Some Fixture.jan_1)
    by reflexivity.
  assert (Hb : Fixture.iso_date "2023-01-02" = Some Fixture.jan_2)
    by reflexivity.
  assert (Hab : (Fixture.jan_1 <= Fixture.jan_2)%Z) by discriminate.
  repeat (split; [assumption |]).
  destruct (main_writes_one_line_per_row
              (RS := Fixture.counter_stream) (RL := counter_stream_laws)
              Fixture.iso_date (mk_args 2 "2023-01-01" "2023-01-02" 1)
              Fixture.jan_1 Fixture.jan_2 Hsd Hn Ha Hb Hab)
    as (df & _ & Em & Hlen).
  exists (csv_header :: map csv_row df). split; [exact Em | exact Hlen].
Defined.

(** ** Days on which demand is certain *)

(** X18: an item with a daily rate of 0.8 or more has demand on every weekday
    (Monday to Friday) of July and December up to and including its peak
    year: the rate of such a day is 1.25 times the daily rate, at least 1,
    so the uniform draw is below it and the quantity is at least 1. *)
Theorem demand_certain_on_peak_season_weekdays
        {RS : RandomState} {RL : RandomStateLaws RS}
        (t0 : date) (sku : string) (lam_daily : R) (peak_year : Z)
        (decay mean_size cv_size : R) (d : date) (recs : table) (s : rng) :
  0 < mean_size -> 0.8 <= lam_daily ->
  (year d - year t0 <= peak_year)%Z ->
  (weekday d < 5)%Z -> (month d = 7 \/ month d = 12)%Z ->
  lam_today lam_daily peak_year decay t0 d (dowFactor (day_name_of d))
  = lam_daily * 1.25 /\
  exists q s',
    day_body t0 sku lam_daily peak_year decay mean_size
             (nb_params mean_size cv_size) d recs s
    = Ok (recs ++ [mk_record d sku q], s') /\
    (1 <= q)%Z.
Proof.
  intros Hm Hlam Hy Hw Hmonth.
  assert (Hrate : lam_today lam_daily peak_year decay t0 d
                            (dowFactor (day_name_of d))
                  = lam_daily * 1.25).
  { rewrite lam_today_effectiveRate. unfold effectiveRate.
    replace (Z.max (year d - year t0 - peak_year) 0) with 0%Z by lia.
    replace (Rmax (1 - decay * 0) 0.1) with 1
      by (unfold Rmax; destruct (Rle_dec _ _); lra).
    rewrite (proj1 (seasonalFactor_cases (month d)) Hmonth).
    assert (Hdow : dowFactor (day_name_of d) = 1.0).
    { unfold day_name_of. pose proof (weekday_range d) as Hr.
      assert (Hc : (weekday d = 0 \/ weekday d = 1 \/ weekday d = 2 \/
                    weekday d = 3 \/ weekday d = 4)%Z) by lia.
      destruct Hc as [E | [E | [E | [E | E]]]]; rewrite E; reflexivity. }
    rewrite Hdow. lra. }
  split; [exact Hrate |].
  destruct (day_body_outcome t0 sku lam_daily peak_year decay mean_size
                             cv_size d recs s Hm)
    as (q & s' & E & _ & _ & Hq).
  exists q, s'. split; [exact E |]. apply Hq.
  pose proof (random_sample_range s) as Hu. rewrite Hrate. lra.
Qed.

Lemma demand_certain_on_peak_season_weekdays_witness :
  0 < 2 /\ 0.8 <= 0.9 /\
  (year Fixture.jul_3 - year Fixture.jan_1 <= 1)%Z /\
  (weekday Fixture.jul_3 < 5)%Z /\
  (month Fixture.jul_3 = 7 \/ month Fixture.jul_3 = 12)%Z /\
  exists q s',
    day_body (RS := Fixture.counter_stream) Fixture.jan_1 "SKU-0001"
             0.9 1 0.1 2 (nb_params 2 0.5) Fixture.jul_3 [] 0%nat
    = Ok ([mk_record Fixture.jul_3 "SKU-0001" q], s') /\ (1 <= q)%Z.
Proof.
  assert (Hm : 0 < 2) by lra.
  assert (Hlam : 0.8 <= 0.9) by lra.
  assert (Hy : (year Fixture.jul_3 - year Fixture.jan_1 <= 1)%Z)
    by discriminate.
  assert (Hw : (weekday Fixture.jul_3 < 5)%Z) by reflexivity.
  assert (Hmo : (month Fixture.jul_3 = 7 \/ month Fixture.jul_3 = 12)%Z)
    by (left; reflexivity).
  repeat (split; [assumption |]).
  exact (proj2 (demand_certain_on_peak_season_weekdays
                  (RS := Fixture.counter_stream) (RL := counter_stream_laws)
                  Fixture.jan_1 "SKU-0001" 0.9 1 0.1 2 0.5 Fixture.jul_3 []
                  0%nat Hm Hlam Hy Hw Hmo)).
Defined.

(** * The solver in binary64 *)






(** * Every row and the draw that decided it *)

Section Observed.

Context {S : Type}.

(** Forgetting what [observed] recorded gives the run back. *)
Lemma observed_erase {A B} (m : M S A) (k : A -> M S B) (s : S) :
  bind m k s = bind (observed m) (fun c => k (fst c)) s.
Proof. unfold bind, observed. now destruct (m s) as [[a s'] | e]. Qed.

(** What [observed] records is the outcome of the computation in the
    state that it records. *)
Lemma observed_inv {A} (m : M S A) (s : S) (c : A * S) (s' : S) :
  observed m s = Ok (c, s') -> snd c = s /\ m s = Ok (fst c, s').
Proof.
  unfold observed. destruct (m s) as [[a s1] | e]; [| discriminate].
  intros H. injection H as <- <-. now split.
Qed.

Lemma for_all_fmap {A B C} (f : A -> M S B) (g : B -> C) (l : list A) :
  forall s,
    for_all (fun x => bind (f x) (fun y => ret (g y))) l s
    = bind (for_all f l) (fun ys => ret (map g ys)) s.
Proof.
  induction l as [| x l IH]; intros s; simpl; [reflexivity |].
  rewrite !bind_assoc. apply bind_ext. intros y s1.
  rewrite bind_ret_l, (bind_cong _ _ _ _ (IH s1)), !bind_assoc.
  apply bind_ext. intros ys s2. reflexivity.
Qed.

Lemma for_all_inv {A B} (f : A -> M S B) (l : list A) :
  forall s ys s',
    for_all f l s = Ok (ys, s') ->
    Forall2 (fun x y => exists s0 s1, f x s0 = Ok (y, s1)) l ys.
Proof.
  induction l as [| x l IH]; simpl; intros s ys s' H.
  - injection H as <- _. constructor.
  - apply bind_inv in H. destruct H as (y & s1 & Hy & H).
    apply bind_inv in H. destruct H as (ys' & s2 & Hys & H).
    injection H as <- _. constructor; [now exists s, s1 | eauto].
Qed.

End Observed.

Section Trace.

Context {RS : RandomState} {RL : RandomStateLaws RS}.
Variable to_datetime : string -> option date.

(** The loop body appends to what it is given and looks at nothing of
    it. *)
Lemma day_body_acc (t0 : date) (sku : string) (lam : R) (pk : Z)
      (dec mean : R) (nb : option (R * R)) (d : date) (acc : table)
      (s : rng) :
  day_body t0 sku lam pk dec mean nb d acc s
  = bind (day_body t0 sku lam pk dec mean nb d [])
         (fun rows => ret (acc ++ rows)) s.
Proof.
  unfold day_body. rewrite !bind_assoc. apply bind_ext. intros dow s1.
  cbv zeta. rewrite !bind_assoc. apply bind_ext. intros u s2.
  rewrite !bind_assoc. apply bind_ext. intros q s3. reflexivity.
Qed.

(** The rows of an item are the rows of its recorded calls. *)
Lemma sku_body_trace (cats : list category) (days : list date) (t0 : date)
      (idx : nat) (acc : table) (s : rng) :
  sku_body cats days t0 idx acc s
  = bind (sku_trace cats days t0 idx)
         (fun t => ret (acc ++ List.concat (map fst (snd t)))) s.
Proof.
  unfold sku_body, sku_trace. rewrite !bind_assoc.
  apply bind_ext. intros cat s1. rewrite !bind_assoc.
  apply bind_ext. intros [[[[lam pk] dec] mean] cv] s2.
  rewrite bind_assoc.
  rewrite (for_each_blocks
             (fun d => day_body t0 (sku_name idx) lam pk dec mean
                                (nb_params mean cv) d [])
             _ days (fun d _ acc0 s0 => day_body_acc _ _ _ _ _ _ _ d acc0 s0)).
  assert (E : forall s0,
             for_all (fun d => day_body t0 (sku_name idx) lam pk dec mean
                                        (nb_params mean cv) d []) days s0
             = bind (for_all
                       (fun d => observed
                                   (day_body t0 (sku_name idx) lam pk dec
                                             mean (nb_params mean cv) d []))
                       days)
                    (fun calls => ret (map fst calls)) s0).
  { intros s0. rewrite <- for_all_fmap. apply for_all_ext.
    intros d _ s3. unfold bind, observed, ret.
    now destruct (day_body _ _ _ _ _ _ _ d [] s3) as [[rows s4] | e]. }
  rewrite (bind_cong _ _ _ _ (E s2)), bind_assoc.
  apply bind_ext. intros calls s3. reflexivity.
Qed.

(** The table is the sorted rows of the recorded calls, and the random
    stream is left in the same state. *)
Lemma generate_rows_trace (n_sku : Z) (start_date end_date : string)
      (s : rng) :
  generate_rows to_datetime n_sku start_date end_date s
  = bind (generate_trace to_datetime n_sku start_date end_date)
         (fun traces => ret (trace_rows traces)) s.
Proof.
  unfold generate_rows, generate_trace. rewrite !bind_assoc.
  apply bind_ext. intros cats s1. rewrite !bind_assoc.
  apply bind_ext. intros days s2. rewrite !bind_assoc.
  apply bind_ext. intros t0 s3.
  rewrite (for_each_blocks
             (fun idx => bind (sku_trace cats days t0 idx)
                              (fun t => ret (List.concat (map fst (snd t)))))
             _ (range n_sku)).
  - rewrite (bind_cong _ _ _ _ (for_all_fmap _ _ _ s3)), bind_assoc.
    apply bind_ext. intros traces s4. reflexivity.
  - intros idx _ acc s4. rewrite sku_body_trace, bind_assoc.
    apply bind_ext. intros t s5. reflexivity.
Qed.

Lemma generate_data_from_rows (n_sku : Z) (start_date end_date : string)
      (s : rng) :
  generate_data_from to_datetime n_sku start_date end_date s
  = bind (generate_rows to_datetime n_sku start_date end_date)
         (fun recs => ret (sort_values recs)) s.
Proof.
  unfold generate_data_from, generate_rows.
  rewrite bind_assoc. apply bind_ext. intros cats s1.
  rewrite bind_assoc. apply bind_ext. intros days s2.
  rewrite bind_assoc. apply bind_ext. intros t0 s3. reflexivity.
Qed.

(** When the gate opens, the quantity of the row is the size that the
    sampler draws in the state left by the gate draw, raised to 1 when
    it is 0. *)
Lemma day_body_floor (t0 : date) (sku : string) (lam : R) (pk : Z)
      (dec mean cv : R) (d : date) (recs : table) (s : rng) :
  0 < mean ->
  fst (random_sample s)
  < lam_today lam pk dec t0 d (dowFactor (day_name_of d)) ->
  exists x s2,
    match nb_params mean cv with
    | None => poisson_rvs mean
    | Some (r_nb, p_nb) => nbinom_rvs r_nb p_nb
    end (snd (random_sample s)) = Ok (x, s2) /\
    day_body t0 sku lam pk dec mean (nb_params mean cv) d recs s
    = Ok (recs ++ [mk_record d sku (Z.max 1 x)], s2).
Proof.
  intros Hm Hu. unfold day_body, lookup.
  rewrite dow_lookup, bind_ret_l. unfold np_rand. rewrite bind_draw.
  apply Rltb_true_iff in Hu. rewrite Hu.
  destruct (nb_params mean cv) as [[r p] |] eqn:E.
  - unfold nbinom_rvs. rewrite (nbinom_args_valid mean cv r p Hm E).
    rewrite !bind_assoc, bind_draw, !bind_ret_l.
    eexists; eexists. split; [| reflexivity].
    unfold draw. now destruct (negative_binomial r p _).
  - unfold poisson_rvs.
    assert (H : Rleb 0 mean = true) by (apply Rleb_true_iff; lra).
    rewrite H, !bind_assoc, bind_draw, !bind_ret_l.
    eexists; eexists. split; [| reflexivity].
    unfold draw. now destruct (poisson mean _).
Qed.

(** A recorded call of the loop body appends the row of the day, and the
    uniform draw made first in the recorded state decides its quantity. *)
Lemma recorded_call (t0 : date) (sku : string) (lam : R) (pk : Z)
      (dec mean cv : R) (d : date) (c : table * rng) (s s' : rng) :
  0 < mean ->
  observed (day_body t0 sku lam pk dec mean (nb_params mean cv) d []) s
  = Ok (c, s') ->
  exists q,
    fst c = [mk_record d sku q] /\ (0 <= q)%Z /\
    let u := fst (random_sample (snd c)) in
    let rate := lam_today lam pk dec t0 d (dowFactor (day_name_of d)) in
    (q = 0%Z <-> rate <= u) /\
    (u < rate ->
     (1 <= q)%Z /\
     exists x s2,
       match nb_params mean cv with
       | None => poisson_rvs mean
       | Some (r_nb, p_nb) => nbinom_rvs r_nb p_nb
       end (snd (random_sample (snd c))) = Ok (x, s2) /\
       q = Z.max 1 x).
Proof.
  intros Hm H. apply observed_inv in H. destruct H as [Hs Hc].
  destruct (day_body_outcome t0 sku lam pk dec mean cv d [] s Hm)
    as (q & s1 & E & Hq & H0 & H1).
  rewrite E in Hc. cbn [app] in Hc. exists q. rewrite Hs.
  split; [congruence |]. split; [exact Hq |]. split; [exact H0 |].
  intros Hu. split; [exact (H1 Hu) |].
  destruct (day_body_floor t0 sku lam pk dec mean cv d [] s Hm Hu)
    as (x & s2 & Ex & E').
  exists x, s2. split; [exact Ex |].
  rewrite E in E'. cbn [app] in E'.
  assert (Hrow : mk_record d sku q = mk_record d sku (Z.max 1 x))
    by congruence.
  exact (f_equal demand_size Hrow).
Qed.

Lemma recorded_item (cats : list category) (days : list date) (t0 : date)
      (idx : nat) (t : (R * Z * R * R * R) * list (table * rng))
      (s s' : rng) :
  sku_trace cats days t0 idx s = Ok (t, s') ->
  let '(lam, pk, dec, mean, cv) := fst t in
  Forall2
    (fun d c =>
       exists q,
         fst c = [mk_record d (sku_name idx) q] /\ (0 <= q)%Z /\
         let u := fst (random_sample (snd c)) in
         let rate := lam_today lam pk dec t0 d (dowFactor (day_name_of d)) in
         (q = 0%Z <-> rate <= u) /\
         (u < rate ->
          (1 <= q)%Z /\
          exists x s2,
            match nb_params mean cv with
            | None => poisson_rvs mean
            | Some (r_nb, p_nb) => nbinom_rvs r_nb p_nb
            end (snd (random_sample (snd c))) = Ok (x, s2) /\
            q = Z.max 1 x))
    days (snd t).
Proof.
  unfold sku_trace. intros H.
  apply bind_inv in H. destruct H as (cat & s1 & _ & H).
  apply bind_inv in H. destruct H as ([[[[lam pk] dec] mean] cv] & s2 & Hp & H).
  apply bind_inv in H. destruct H as (calls & s3 & Hc & H).
  injection H as <- _. cbn [fst snd].
  destruct (sku_params_run cat s1)
    as (lam' & pk' & dec' & mean' & cv' & s2' & E & _ & _ & _ & _ & Hmean & _).
  assert (Hm : 0 < mean) by (rewrite E in Hp; injection Hp as; lra).
  apply for_all_inv in Hc.
  eapply Forall2_impl; [| exact Hc].
  intros d c (s0 & s0' & Hcall). cbv beta in Hcall.
  exact (recorded_call t0 (sku_name idx) lam pk dec mean cv d c s0 s0'
                       Hm Hcall).
Qed.

(** A run of the generator from a seeded state: the table with the
    state that is left, and the rows before the sort. *)
Lemma generate_data_run (n_sku : Z) (start_date end_date : string)
      (sd : Z) (a b : date) :
  (0 <= sd < 2 ^ 32)%Z -> (0 <= n_sku)%Z ->
  to_datetime start_date = Some a -> to_datetime end_date = Some b ->
  exists traces s',
    generate_trace to_datetime n_sku start_date end_date (seed sd)
    = Ok (traces, s') /\
    generate_rows to_datetime n_sku start_date end_date (seed sd)
    = Ok (trace_rows traces, s') /\
    generate_data_from to_datetime n_sku start_date end_date (seed sd)
    = Ok (sort_values (trace_rows traces), s') /\
    generate_data to_datetime n_sku start_date end_date sd
    = Ok (sort_values (trace_rows traces)).
Proof.
  intros Hsd Hn Ha Hb.
  destruct (generate_data_table to_datetime n_sku start_date end_date sd
                                a b Hsd Hn Ha Hb) as (recs & E & _).
  rewrite (generate_data_seeded to_datetime _ _ _ _ Hsd) in E |- *.
  unfold eval in E |- *.
  destruct (generate_data_from to_datetime n_sku start_date end_date
                               (seed sd)) as [[df s'] |] eqn:Ef;
    [| discriminate].
  pose proof Ef as Er. rewrite generate_data_from_rows in Er.
  apply bind_inv in Er. destruct Er as (rows & s1 & Er & Hret).
  injection Hret as <- <-.
  pose proof Er as Et. rewrite generate_rows_trace in Et.
  apply bind_inv in Et. destruct Et as (traces & s2 & Et & Hret).
  injection Hret as <- <-.
  exists traces, s2. repeat split; assumption || reflexivity.
Qed.

(** The keys of the rows of the recorded calls, in the order of the
    loops. *)
Lemma trace_rows_keys (days : list date) (idxs : list nat)
      (traces : list ((R * Z * R * R * R) * list (table * rng))) :
  Forall2
    (fun idx t =>
       Forall2 (fun d c => exists q, fst c = [mk_record d (sku_name idx) q])
               days (snd t))
    idxs traces ->
  map key (trace_rows traces)
  = flat_map (fun idx => map (fun d => (sku_name idx, d)) days) idxs.
Proof.
  unfold trace_rows.
  induction 1 as [| idx t idxs traces Ht _ IH]; [reflexivity |].
  cbn [map List.concat flat_map]. rewrite map_app, IH. f_equal.
  clear IH. induction Ht as [| d c days calls [q Hq] _ IH]; [reflexivity |].
  cbn [map List.concat]. rewrite Hq. cbn [app map]. now rewrite IH.
Qed.

(** Every call of the inner loop body in a run of the generator. *)
Lemma generate_data_calls (n_sku : Z) (start_date end_date : string)
      (sd : Z) (a b : date) :
  (0 <= sd < 2 ^ 32)%Z -> (0 <= n_sku)%Z ->
  to_datetime start_date = Some a -> to_datetime end_date = Some b ->
  exists traces s',
    generate_trace to_datetime n_sku start_date end_date (seed sd)
    = Ok (traces, s') /\
    generate_rows to_datetime n_sku start_date end_date (seed sd)
    = Ok (trace_rows traces, s') /\
    generate_data_from to_datetime n_sku start_date end_date (seed sd)
    = Ok (sort_values (trace_rows traces), s') /\
    generate_data to_datetime n_sku start_date end_date sd
    = Ok (sort_values (trace_rows traces)) /\
    Forall2
      (fun idx t =>
         let '(lam, pk, dec, mean, cv) := fst t in
         Forall2
           (fun d c =>
              exists q,
                fst c = [mk_record d (sku_name idx) q] /\ (0 <= q)%Z /\
                let u := fst (random_sample (snd c)) in
                let rate :=
                  lam_today lam pk dec a d (dowFactor (day_name_of d)) in
                (q = 0%Z <-> rate <= u) /\
                (u < rate ->
                 (1 <= q)%Z /\
                 exists x s2,
                   match nb_params mean cv with
                   | None => poisson_rvs mean
                   | Some (r_nb, p_nb) => nbinom_rvs r_nb p_nb
                   end (snd (random_sample (snd c))) = Ok (x, s2) /\
                   q = Z.max 1 x))
           (days_between a b) (snd t))
      (range n_sku) traces /\
    map key (trace_rows traces)
    = all_keys (Z.to_nat n_sku) (days_between a b).
Proof.
  intros Hsd Hn Ha Hb.
  destruct (generate_data_run n_sku start_date end_date sd a b
                              Hsd Hn Ha Hb)
    as (traces & s' & Et & Er & Ef & Ed).
  exists traces, s'. split; [exact Et |]. split; [exact Er |].
  split; [exact Ef |]. split; [exact Ed |].
  assert (HF : Forall2
      (fun idx t =>
         let '(lam, pk, dec, mean, cv) := fst t in
         Forall2
           (fun d c =>
              exists q,
                fst c = [mk_record d (sku_name idx) q] /\ (0 <= q)%Z /\
                let u := fst (random_sample (snd c)) in
                let rate :=
                  lam_today lam pk dec a d (dowFactor (day_name_of d)) in
                (q = 0%Z <-> rate <= u) /\
                (u < rate ->
                 (1 <= q)%Z /\
                 exists x s2,
                   match nb_params mean cv with
                   | None => poisson_rvs mean
                   | Some (r_nb, p_nb) => nbinom_rvs r_nb p_nb
                   end (snd (random_sample (snd c))) = Ok (x, s2) /\
                   q = Z.max 1 x))
           (days_between a b) (snd t))
      (range n_sku) traces).
  { unfold generate_trace in Et.
    apply bind_inv in Et. destruct Et as (cats & s1 & _ & Et).
    rewrite (bind_ok _ _ _ _ _
               (pd_date_range_run to_datetime _ _ a b s1 Ha Hb)) in Et.
    unfold pd_to_datetime in Et. rewrite Ha, bind_ret_l in Et.
    apply for_all_inv in Et.
    eapply Forall2_impl; [| exact Et].
    intros idx t (s0 & s0' & Ht).
    exact (recorded_item cats (days_between a b) a idx t s0 s0' Ht). }
  split; [exact HF |].
  unfold all_keys. apply trace_rows_keys.
  eapply Forall2_impl; [| exact HF].
  intros idx [[[[[lam pk] dec] mean] cv] calls] Hc. cbn [fst snd] in *.
  eapply Forall2_impl; [| exact Hc].
  intros d c (q & Hq & _). now exists q.
Qed.

(** C3: every record of the table belongs to one call of the inner loop
    body, and its quantity is what the gate of that call decides.  The
    table is the sorted rows of the recorded calls, one call for every
    item and day, in the order of the loops; a call appends one row, of
    its item and day, with a quantity that is a non-negative integer, 0
    exactly when the uniform draw u made in the state in which the call
    starts is not below the effective rate of the day; when u is below
    it the quantity is at least 1: it is the size that the sampler of
    the item draws next, raised to 1 when that is 0. *)
Theorem every_quantity_follows_its_gate
        (n_sku : Z) (start_date end_date : string) (sd : Z) (a b : date) :
  (0 <= sd < 2 ^ 32)%Z -> (0 <= n_sku)%Z ->
  to_datetime start_date = Some a -> to_datetime end_date = Some b ->
  exists traces s',
    generate_trace to_datetime n_sku start_date end_date (seed sd)
    = Ok (traces, s') /\
    generate_data_from to_datetime n_sku start_date end_date (seed sd)
    = Ok (sort_values (trace_rows traces), s') /\
    generate_data to_datetime n_sku start_date end_date sd
    = Ok (sort_values (trace_rows traces)) /\
    Permutation (sort_values (trace_rows traces)) (trace_rows traces) /\
    Forall2
      (fun idx t =>
         let '(lam, pk, dec, mean, cv) := fst t in
         Forall2
           (fun d c =>
              exists q,
                fst c = [mk_record d (sku_name idx) q] /\ (0 <= q)%Z /\
                let u := fst (random_sample (snd c)) in
                let rate :=
                  lam_today lam pk dec a d (dowFactor (day_name_of d)) in
                (q = 0%Z <-> rate <= u) /\
                (u < rate ->
                 (1 <= q)%Z /\
                 exists x s2,
                   match nb_params mean cv with
                   | None => poisson_rvs mean
                   | Some (r_nb, p_nb) => nbinom_rvs r_nb p_nb
                   end (snd (random_sample (snd c))) = Ok (x, s2) /\
                   q = Z.max 1 x))
           (days_between a b) (snd t))
      (range n_sku) traces /\
    Forall (fun r => (0 <= demand_size r)%Z)
           (sort_values (trace_rows traces)).
Proof.
  intros Hsd Hn Ha Hb.
  destruct (generate_data_calls n_sku start_date end_date sd a b
                                Hsd Hn Ha Hb)
    as (traces & s' & Et & _ & Ef & Ed & HF & _).
  exists traces, s'. split; [exact Et |]. split; [exact Ef |].
  split; [exact Ed |]. split; [apply sort_values_perm |].
  split; [exact HF |].
  apply (Permutation_Forall
           (Permutation_sym (sort_values_perm (trace_rows traces)))).
  unfold trace_rows. apply Forall_concat, Forall_map.
  clear - HF. induction HF as [| idx t idxs traces Ht _ IH]; constructor;
    [| exact IH].
  clear IH. destruct t as [[[[[lam pk] dec] mean] cv] calls].
  cbn [fst snd] in *. apply Forall_concat, Forall_map.
  induction Ht as [| d c days calls (q & Hq & H0 & _) _ IH]; constructor;
    [| exact IH].
  rewrite Hq. constructor; [exact H0 | constructor].
Qed.

(** C8: on a well-formed input the table is the rows that the loops
    have appended, rearranged: it is a permutation of them, sorted by
    item identifier first and by date second, both ascending, and no pair
    of an item and a date occurs twice.  Before the sort the rows come
    item by item and, within an item, day by day. *)
Theorem table_is_sorted_generated_rows
        (n_sku : Z) (start_date end_date : string) (sd : Z) (a b : date) :
  (0 <= sd < 2 ^ 32)%Z -> (0 <= n_sku)%Z ->
  to_datetime start_date = Some a -> to_datetime end_date = Some b ->
  exists recs df s',
    generate_rows to_datetime n_sku start_date end_date (seed sd)
    = Ok (recs, s') /\
    map key recs = all_keys (Z.to_nat n_sku) (days_between a b) /\
    generate_data_from to_datetime n_sku start_date end_date (seed sd)
    = Ok (df, s') /\
    generate_data to_datetime n_sku start_date end_date sd = Ok df /\
    df = sort_values recs /\
    Permutation df recs /\
    (forall r, In r df <-> In r recs) /\
    List.length df = List.length recs /\
    StronglySorted key_le df /\
    NoDup (map key df).
Proof.
  intros Hsd Hn Ha Hb.
  destruct (generate_data_calls n_sku start_date end_date sd a b
                                Hsd Hn Ha Hb)
    as (traces & s' & _ & Er & Ef & Ed & _ & Hk).
  exists (trace_rows traces), (sort_values (trace_rows traces)), s'.
  pose proof (sort_values_perm (trace_rows traces)) as HP.
  split; [exact Er |]. split; [exact Hk |]. split; [exact Ef |].
  split; [exact Ed |]. split; [reflexivity |]. split; [exact HP |].
  split.
  { intros r. split; apply Permutation_in;
      [exact HP | exact (Permutation_sym HP)]. }
  split; [exact (Permutation_length HP) |].
  split; [apply sort_values_sorted |].
  apply (Permutation_NoDup
           (Permutation_sym (sorted_keys (trace_rows traces)))).
  rewrite Hk. apply all_keys_NoDup, days_between_NoDup.
Qed.


(** C5 as amended: the categories of all items are drawn first, in one
    batch and in item order; then, item by item, dailyRate, peakYear,
    decayRate, meanSize and cvSize are drawn in that order, followed by one
    gate draw per day and one size draw on each occurrence.  The generator
    equals this reference from every state of the random stream, in the
    table it returns and in the state it leaves behind, hence draw for
    draw; so the table is a function of the seed and the other arguments.
    With at most one item this is also the per-item order. *)
Theorem generation_equals_categories_first
        (n_sku : Z) (start_date end_date : string) (sd : Z) (a b : date) :
  (0 <= sd < 2 ^ 32)%Z -> (0 <= n_sku)%Z ->
  to_datetime start_date = Some a -> to_datetime end_date = Some b ->
  (forall s : rng,
      generate_data_from to_datetime n_sku start_date end_date s
      = categories_first (Z.to_nat n_sku) a b s) /\
  generate_data to_datetime n_sku start_date end_date sd
  = eval (categories_first (Z.to_nat n_sku) a b) (seed sd) /\
  (exists df s',
      generate_data_from to_datetime n_sku start_date end_date (seed sd)
      = Ok (df, s') /\
      categories_first (Z.to_nat n_sku) a b (seed sd) = Ok (df, s') /\
      generate_data to_datetime n_sku start_date end_date sd = Ok df) /\
  ((n_sku <= 1)%Z ->
   forall s : rng,
     generate_data_from to_datetime n_sku start_date end_date s
     = item_major (Z.to_nat n_sku) a b s).
Proof.
  intros Hsd Hn Ha Hb.
  pose proof (generate_data_from_categories_first
                to_datetime n_sku start_date end_date a b Hn Ha Hb) as E.
  split; [exact E |]. split.
  { rewrite (generate_data_seeded to_datetime _ _ _ _ Hsd).
    unfold eval. now rewrite E. }
  split.
  - destruct (generate_data_run n_sku start_date end_date sd a b
                                Hsd Hn Ha Hb)
      as (traces & s' & _ & _ & Ef & Ed).
    exists (sort_values (trace_rows traces)), s'.
    split; [exact Ef |]. split; [now rewrite <- E | exact Ed].
  - intros H1 s. rewrite E. symmetry. apply item_major_one. lia.
Qed.

End Trace.

Lemma generation_equals_categories_first_witness :
  (0 <= 1 < 2 ^ 32)%Z /\ (0 <= 2)%Z /\
  Fixture.iso_date "2023-01-01" = Some Fixture.jan_1 /\
  Fixture.iso_date "2023-01-02" = Some Fixture.jan_2 /\
  forall s : rng (RandomState := Fixture.counter_stream),
    generate_data_from (RS := Fixture.counter_stream) Fixture.iso_date
                       2 "2023-01-01" "2023-01-02" s
    = categories_first (RS := Fixture.counter_stream)
                       2 Fixture.jan_1 Fixture.jan_2 s.
Proof.
  assert (Hsd : (0 <= 1 < 2 ^ 32)%Z) by (split; [discriminate | reflexivity]).
  assert (Hn : (0 <= 2)%Z) by discriminate.
  assert (Ha : Fixture.iso_date "2023-01-01" = Some Fixture.jan_1)
    by reflexivity.
  assert (Hb : Fixture.iso_date "2023-01-02" = Some Fixture.jan_2)
    by reflexivity.
  repeat (split; [assumption |]).
  exact (proj1 (generation_equals_categories_first
                  (RS := Fixture.counter_stream) (RL := counter_stream_laws)
                  Fixture.iso_date
                  2 "2023-01-01" "2023-01-02" 1 Fixture.jan_1 Fixture.jan_2
                  Hsd Hn Ha Hb)).
Defined.

Lemma every_quantity_follows_its_gate_witness :
  (0 <= 1 < 2 ^ 32)%Z /\ (0 <= 2)%Z /\
  Fixture.iso_date "2023-01-01" = Some Fixture.jan_1 /\
  Fixture.iso_date "2023-01-02" = Some Fixture.jan_2 /\
  exists traces s',
    generate_trace (RS := Fixture.counter_stream) Fixture.iso_date
                   2 "2023-01-01" "2023-01-02" (seed 1) = Ok (traces, s') /\
    generate_data (RS := Fixture.counter_stream) Fixture.iso_date
                  2 "2023-01-01" "2023-01-02" 1
    = Ok (sort_values (trace_rows traces)).
Proof.
  assert (Hsd : (0 <= 1 < 2 ^ 32)%Z) by (split; [discriminate | reflexivity]).
  assert (Hn : (0 <= 2)%Z) by discriminate.
  assert (Ha : Fixture.iso_date "2023-01-01" = Some Fixture.jan_1)
    by reflexivity.
  assert (Hb : Fixture.iso_date "2023-01-02" = Some Fixture.jan_2)
    by reflexivity.
  repeat (split; [assumption |]).
  destruct (every_quantity_follows_its_gate
              (RS := Fixture.counter_stream) (RL := counter_stream_laws)
              Fixture.iso_date
              2 "2023-01-01" "2023-01-02" 1 Fixture.jan_1 Fixture.jan_2
              Hsd Hn Ha Hb)
    as (traces & s' & Et & _ & Ed & _).
  exists traces, s'. split; [exact Et | exact Ed].
Defined.

Lemma table_is_sorted_generated_rows_witness :
  (0 <= 1 < 2 ^ 32)%Z /\ (0 <= 2)%Z /\
  Fixture.iso_date "2023-01-01" = Some Fixture.jan_1 /\
  Fixture.iso_date "2023-01-02" = Some Fixture.jan_2 /\
  exists recs df,
    generate_data (RS := Fixture.counter_stream) Fixture.iso_date
                  2 "2023-01-01" "2023-01-02" 1 = Ok df /\
    Permutation df recs /\ StronglySorted key_le df /\ NoDup (map key df).
Proof.
  assert (Hsd : (0 <= 1 < 2 ^ 32)%Z) by (split; [discriminate | reflexivity]).
  assert (Hn : (0 <= 2)%Z) by discriminate.
  assert (Ha : Fixture.iso_date "2023-01-01" = Some Fixture.jan_1)
    by reflexivity.
  assert (Hb : Fixture.iso_date "2023-01-02" = Some Fixture.jan_2)
    by reflexivity.
  repeat (split; [assumption |]).
  destruct (table_is_sorted_generated_rows
              (RS := Fixture.counter_stream) (RL := counter_stream_laws)
              Fixture.iso_date
              2 "2023-01-01" "2023-01-02" 1 Fixture.jan_1 Fixture.jan_2
              Hsd Hn Ha Hb)
    as (recs & df & s' & _ & _ & _ & Ed & _ & HP & _ & _ & Hs & Hd).
  exists recs, df. repeat split; assumption.
Defined.

